(** * aiohttp client tracing: signals, trace configurations and traces

    A shallow embedding of [aiohttp/tracing.py].  Python objects live in a
    store of attribute dictionaries; a coroutine is a function of the store
    that ends by returning or by raising, and [await] runs it. *)

From stdpp Require Import gmap strings list.
From Stdlib Require Import Strings.Byte.

Local Open Scope string_scope.
Local Open Scope list_scope.

(** ** Python values, objects and exceptions *)

Definition loc := positive.

(** A value of static type [Any]: [None], an immediate, or a reference to
    an object of the store. *)
Inductive val : Type :=
| VNone
| VInt (z : Z)
| VStr (s : string)
| VRef (l : loc).

#[global] Instance val_eq_dec : EqDecision val.
Proof. solve_decision. Defined.

(** The store: the attribute dictionary ([__dict__]) of every live object. *)
Abbreviation namespace := (gmap string val).
Abbreviation heap := (gmap loc (gmap string val)).

(** [object()] followed by [__dict__.update(attrs)]: a new object gets an
    address no live object has. *)
Definition alloc (attrs : namespace) (h : heap) : loc * heap :=
  let l := fresh (dom h) in (l, <[l := attrs]> h).

(** [setattr(obj, name, v)] and [getattr(obj, name)] on a stored object. *)
Definition setattr (l : loc) (name : string) (v : val) (h : heap) : heap :=
  match h !! l with
  | Some attrs => <[l := <[name := v]> attrs]> h
  | None => h
  end.

Definition getattr (l : loc) (name : string) (h : heap) : option val :=
  match h !! l with
  | Some attrs => attrs !! name
  | None => None
  end.

Inductive exn : Type :=
| ConfigurationError
| TypeError (msg : string)
| ValueError (msg : string)
| RuntimeError (msg : string).

#[global] Instance exn_eq_dec : EqDecision exn.
Proof. solve_decision. Defined.

(** How a call ends: it returns a value or it raises. *)
Inductive result (A : Type) : Type :=
| Ok (a : A)
| Raise (e : exn).
Arguments Ok {A} a.
Arguments Raise {A} e.

(** ** The collaborators the tracing module only passes along

    [str] and [bytes] are immutable values; a [yarl.URL] is an immutable
    value identified by its text; a [CIMultiDict], a [ClientResponse] and a
    [ClientSession] are objects, identified by their address. *)
Definition str := string.
Definition bytes := list byte.
Inductive URL : Type := mkURL (text : string).
Definition CIMultiDict := loc.
Definition ClientResponse := loc.
Definition ClientSession := loc.
Definition BaseException := exn.

#[global] Instance URL_eq_dec : EqDecision URL.
Proof. solve_decision. Defined.

(** ** Signal *)

Module Signal.

(** A listener is an [async def listener(owner, context, payload)]
    (spec 3: a callable of owner, context and payload).  Awaiting it
    reads and writes the store and ends by returning or by raising.
    [callback_id] is the identity of the function object. *)
Record Listener (P : Type) : Type := {
  callback_id : nat;
  call : ClientSession -> val -> P -> heap -> result unit * heap
}.
Arguments callback_id {P} _.
Arguments call {P} _ _ _ _ _.

(** One listener invocation, as the listener sees it: who was called,
    and with which arguments.  The code keeps no such record; the runs
    below carry it so that statements can speak of what was invoked. *)
Record Invocation (P : Type) : Type := {
  callee : nat;
  owner : ClientSession;
  context : val;
  payload : P
}.
Arguments callee {P} _.
Arguments owner {P} _.
Arguments context {P} _.
Arguments payload {P} _.
Arguments Build_Invocation {P} _ _ _ _.

(** What awaiting a dispatch leaves behind: how it ended, the store, and
    the invocations made, oldest first. *)
Record Run (P : Type) : Type := {
  outcome : result unit;
  final : heap;
  invoked : list (Invocation P)
}.
Arguments outcome {P} _.
Arguments final {P} _.
Arguments invoked {P} _.
Arguments Build_Run {P} _ _ _.

(** Modelled from the spec: [aiosignal.Signal] is imported by
    [tracing.py] and its body is not part of the sources.  Spec 3: a
    Signal is [listeners], an ordered sequence of callables, and
    [frozen], a boolean; it is created open. *)
Record t (P : Type) : Type := {
  listeners : list (Listener P);
  frozen : bool
}.
Arguments listeners {P} _.
Arguments frozen {P} _.
Arguments Build_t {P} _ _.

(** Modelled from the spec: the constructor [Signal(owner)] of the absent
    [aiosignal]; a signal is created open and without listeners (the
    owner only labels it). *)
Definition new {P : Type} : t P :=
  {| listeners := []; frozen := false |}.

(** Modelled from the spec: [append] of the absent [aiosignal.Signal].
    Spec 4.1: adds a listener to the end of the sequence; fails with a
    ConfigurationError if the signal is already frozen.  The second
    component is the signal after the call. *)
Definition append {P : Type} (listener : Listener P) (self : t P)
  : result unit * t P :=
  if frozen self then (Raise ConfigurationError, self)
  else (Ok tt, {| listeners := listeners self ++ [listener];
                  frozen := frozen self |}).

(** Modelled from the spec: [freeze] of the absent [aiosignal.Signal].
    Spec 4.1: transitions to frozen, and must not un-freeze. *)
Definition freeze {P : Type} (self : t P) : t P :=
  {| listeners := listeners self; frozen := true |}.

(** Modelled from the spec: the loop of [send] of the absent
    [aiosignal.Signal].  Spec 4.1 and 9: an explicit sequential loop that
    awaits each listener in turn; the next listener starts in the store
    the previous one left, and a listener that raises ends the loop. *)
Fixpoint run_listeners {P : Type} (ls : list (Listener P))
    (owner : ClientSession) (context : val) (payload : P) (h : heap)
  : Run P :=
  match ls with
  | [] => {| outcome := Ok tt; final := h; invoked := [] |}
  | l :: rest =>
      let inv := Build_Invocation (callback_id l) owner context payload in
      match call l owner context payload h with
      | (Ok _, h') =>
          let r := run_listeners rest owner context payload h' in
          {| outcome := outcome r; final := final r;
             invoked := inv :: invoked r |}
      | (Raise e, h') =>
          {| outcome := Raise e; final := h'; invoked := [inv] |}
      end
  end.

(** Modelled from the spec: [send] of the absent [aiosignal.Signal].
    Spec 4.1: requires [frozen] (fails with ConfigurationError
    otherwise); invokes every listener in registration order, awaiting
    each to completion before invoking the next; if a listener raises,
    the remaining listeners are not invoked and the exception surfaces
    to the caller of [send]. *)
Definition send {P : Type} (self : t P)
    (owner : ClientSession) (context : val) (payload : P) (h : heap)
  : Run P :=
  if frozen self then run_listeners (listeners self) owner context payload h
  else {| outcome := Raise ConfigurationError; final := h; invoked := [] |}.

(** Registering a sequence of listeners, one [append] after the other;
    the first failing [append] ends the registration. *)
Fixpoint append_all {P : Type} (ls : list (Listener P)) (self : t P)
  : result unit * t P :=
  match ls with
  | [] => (Ok tt, self)
  | l :: rest =>
      match append l self with
      | (Ok _, self') => append_all rest self'
      | (Raise e, self') => (Raise e, self')
      end
  end.

(** Several sends on one signal, one after the other, each starting in
    the store the previous one left; the runs are returned in order.
    A raising send is caught by the caller here, so that the next one
    can be observed as well. *)
Fixpoint send_each {P : Type} (self : t P)
    (calls : list (ClientSession * val * P)) (h : heap) : list (Run P) :=
  match calls with
  | [] => []
  | (o, c, p) :: rest =>
      let r := send self o c p h in
      r :: send_each self rest (final r)
  end.

(** The store after the listeners [ls] have each run to completion, one
    after the other, on the same arguments. *)
Definition effects {P : Type} (ls : list (Listener P))
    (owner : ClientSession) (context : val) (payload : P) (h : heap)
  : heap :=
  foldl (fun h l => snd (call l owner context payload h)) h ls.

(** The invocation of listener [l] with the given arguments. *)
Definition invocation {P : Type} (owner : ClientSession) (context : val)
    (payload : P) (l : Listener P) : Invocation P :=
  Build_Invocation (callback_id l) owner context payload.

End Signal.

(** ** Event payloads

    Modelled from the spec: [frozen_dataclass_decorator] comes from
    [aiohttp/helpers.py], which is not among the sources.  Spec 3: a
    payload is an immutable value object with no behaviour beyond field
    access.  As for a dataclass, [make] takes the fields in the order of
    their declaration, and [fields] lists them, by name, in that order. *)

Inductive field_value : Type :=
| FStr (s : str)
| FURL (u : URL)
| FHeaders (h : CIMultiDict)
| FBytes (b : bytes)
| FResponse (r : ClientResponse)
| FException (e : BaseException).

(** Parameters sent by the [on_request_start] signal. *)
Module TraceRequestStartParams.
Record t : Type := make {
  method : str;
  url : URL;
  headers : CIMultiDict
}.
Definition fields (self : t) : list (string * field_value) :=
  [("method", FStr (method self)); ("url", FURL (url self)); ("headers", FHeaders (headers self))].
End TraceRequestStartParams.

(** Parameters sent by the [on_request_chunk_sent] signal. *)
Module TraceRequestChunkSentParams.
Record t : Type := make {
  method : str;
  url : URL;
  chunk : bytes
}.
Definition fields (self : t) : list (string * field_value) :=
  [("method", FStr (method self)); ("url", FURL (url self)); ("chunk", FBytes (chunk self))].
End TraceRequestChunkSentParams.

(** Parameters sent by the [on_response_chunk_received] signal. *)
Module TraceResponseChunkReceivedParams.
Record t : Type := make {
  method : str;
  url : URL;
  chunk : bytes
}.
Definition fields (self : t) : list (string * field_value) :=
  [("method", FStr (method self)); ("url", FURL (url self)); ("chunk", FBytes (chunk self))].
End TraceResponseChunkReceivedParams.

(** Parameters sent by the [on_request_end] signal. *)
Module TraceRequestEndParams.
Record t : Type := make {
  method : str;
  url : URL;
  headers : CIMultiDict;
  response : ClientResponse
}.
Definition fields (self : t) : list (string * field_value) :=
  [("method", FStr (method self)); ("url", FURL (url self)); ("headers", FHeaders (headers self)); ("response", FResponse (response self))].
End TraceRequestEndParams.

(** Parameters sent by the [on_request_exception] signal. *)
Module TraceRequestExceptionParams.
Record t : Type := make {
  method : str;
  url : URL;
  headers : CIMultiDict;
  exception : BaseException
}.
Definition fields (self : t) : list (string * field_value) :=
  [("method", FStr (method self)); ("url", FURL (url self)); ("headers", FHeaders (headers self)); ("exception", FException (exception self))].
End TraceRequestExceptionParams.

(** Parameters sent by the [on_request_redirect] signal. *)
Module TraceRequestRedirectParams.
Record t : Type := make {
  method : str;
  url : URL;
  headers : CIMultiDict;
  response : ClientResponse
}.
Definition fields (self : t) : list (string * field_value) :=
  [("method", FStr (method self)); ("url", FURL (url self)); ("headers", FHeaders (headers self)); ("response", FResponse (response self))].
End TraceRequestRedirectParams.

(** Parameters sent by the [on_connection_queued_start] signal. *)
Module TraceConnectionQueuedStartParams.
Record t : Type := make {}.
Definition fields (self : t) : list (string * field_value) :=
  [].
End TraceConnectionQueuedStartParams.

(** Parameters sent by the [on_connection_queued_end] signal. *)
Module TraceConnectionQueuedEndParams.
Record t : Type := make {}.
Definition fields (self : t) : list (string * field_value) :=
  [].
End TraceConnectionQueuedEndParams.

(** Parameters sent by the [on_connection_create_start] signal. *)
Module TraceConnectionCreateStartParams.
Record t : Type := make {}.
Definition fields (self : t) : list (string * field_value) :=
  [].
End TraceConnectionCreateStartParams.

(** Parameters sent by the [on_connection_create_end] signal. *)
Module TraceConnectionCreateEndParams.
Record t : Type := make {}.
Definition fields (self : t) : list (string * field_value) :=
  [].
End TraceConnectionCreateEndParams.

(** Parameters sent by the [on_connection_reuseconn] signal. *)
Module TraceConnectionReuseconnParams.
Record t : Type := make {}.
Definition fields (self : t) : list (string * field_value) :=
  [].
End TraceConnectionReuseconnParams.

(** Parameters sent by the [on_dns_resolvehost_start] signal. *)
Module TraceDnsResolveHostStartParams.
Record t : Type := make {
  host : str
}.
Definition fields (self : t) : list (string * field_value) :=
  [("host", FStr (host self))].
End TraceDnsResolveHostStartParams.

(** Parameters sent by the [on_dns_resolvehost_end] signal. *)
Module TraceDnsResolveHostEndParams.
Record t : Type := make {
  host : str
}.
Definition fields (self : t) : list (string * field_value) :=
  [("host", FStr (host self))].
End TraceDnsResolveHostEndParams.

(** Parameters sent by the [on_dns_cache_hit] signal. *)
Module TraceDnsCacheHitParams.
Record t : Type := make {
  host : str
}.
Definition fields (self : t) : list (string * field_value) :=
  [("host", FStr (host self))].
End TraceDnsCacheHitParams.

(** Parameters sent by the [on_dns_cache_miss] signal. *)
Module TraceDnsCacheMissParams.
Record t : Type := make {
  host : str
}.
Definition fields (self : t) : list (string * field_value) :=
  [("host", FStr (host self))].
End TraceDnsCacheMissParams.

(** Parameters sent by the [on_request_headers_sent] signal. *)
Module TraceRequestHeadersSentParams.
Record t : Type := make {
  method : str;
  url : URL;
  headers : CIMultiDict
}.
Definition fields (self : t) : list (string * field_value) :=
  [("method", FStr (method self)); ("url", FURL (url self)); ("headers", FHeaders (headers self))].
End TraceRequestHeadersSentParams.
(** ** TraceConfig *)

(** The protocol [_Factory]: a callable taking keyword arguments only
    (a dictionary) and returning a context; its body may use the store
    and may raise.  A factory sees the keyword arguments and the objects
    of the store; one that reads the signals of a TraceConfig through a
    closure is outside this type. *)
Definition _Factory : Type := namespace -> heap -> result val * heap.

(** [types.SimpleNamespace], called with keyword arguments: a new object
    whose attributes are
    the keyword arguments. *)
Definition SimpleNamespace : _Factory :=
  fun kwargs h => let (l, h') := alloc kwargs h in (Ok (VRef l), h').

Module TraceConfig.

Record t : Type := {
  _on_request_start : Signal.t TraceRequestStartParams.t;
  _on_request_chunk_sent : Signal.t TraceRequestChunkSentParams.t;
  _on_response_chunk_received : Signal.t TraceResponseChunkReceivedParams.t;
  _on_request_end : Signal.t TraceRequestEndParams.t;
  _on_request_exception : Signal.t TraceRequestExceptionParams.t;
  _on_request_redirect : Signal.t TraceRequestRedirectParams.t;
  _on_connection_queued_start : Signal.t TraceConnectionQueuedStartParams.t;
  _on_connection_queued_end : Signal.t TraceConnectionQueuedEndParams.t;
  _on_connection_create_start : Signal.t TraceConnectionCreateStartParams.t;
  _on_connection_create_end : Signal.t TraceConnectionCreateEndParams.t;
  _on_connection_reuseconn : Signal.t TraceConnectionReuseconnParams.t;
  _on_dns_resolvehost_start : Signal.t TraceDnsResolveHostStartParams.t;
  _on_dns_resolvehost_end : Signal.t TraceDnsResolveHostEndParams.t;
  _on_dns_cache_hit : Signal.t TraceDnsCacheHitParams.t;
  _on_dns_cache_miss : Signal.t TraceDnsCacheMissParams.t;
  _on_request_headers_sent : Signal.t TraceRequestHeadersSentParams.t;
  _trace_config_ctx_factory : _Factory
}.

(** [__init__]: sixteen new signals and the context factory, which is
    [SimpleNamespace] when the argument is left out. *)
Definition __init__ (trace_config_ctx_factory : option _Factory) : t := {|
  _on_request_start := Signal.new;
  _on_request_chunk_sent := Signal.new;
  _on_response_chunk_received := Signal.new;
  _on_request_end := Signal.new;
  _on_request_exception := Signal.new;
  _on_request_redirect := Signal.new;
  _on_connection_queued_start := Signal.new;
  _on_connection_queued_end := Signal.new;
  _on_connection_create_start := Signal.new;
  _on_connection_create_end := Signal.new;
  _on_connection_reuseconn := Signal.new;
  _on_dns_resolvehost_start := Signal.new;
  _on_dns_resolvehost_end := Signal.new;
  _on_dns_cache_hit := Signal.new;
  _on_dns_cache_miss := Signal.new;
  _on_request_headers_sent := Signal.new;
  _trace_config_ctx_factory := default SimpleNamespace trace_config_ctx_factory
|}.

(** Return a new trace_config_ctx instance.  The parameter
    [trace_request_ctx] is [None] when left out. *)
Definition trace_config_ctx (self : t) (trace_request_ctx : option val)
  : heap -> result val * heap :=
  _trace_config_ctx_factory self
    {[ "trace_request_ctx" := default VNone trace_request_ctx ]}.

(** The sixteen read-only properties. *)
Definition on_request_start (self : t) : Signal.t TraceRequestStartParams.t := _on_request_start self.
Definition on_request_chunk_sent (self : t) : Signal.t TraceRequestChunkSentParams.t := _on_request_chunk_sent self.
Definition on_response_chunk_received (self : t) : Signal.t TraceResponseChunkReceivedParams.t := _on_response_chunk_received self.
Definition on_request_end (self : t) : Signal.t TraceRequestEndParams.t := _on_request_end self.
Definition on_request_exception (self : t) : Signal.t TraceRequestExceptionParams.t := _on_request_exception self.
Definition on_request_redirect (self : t) : Signal.t TraceRequestRedirectParams.t := _on_request_redirect self.
Definition on_connection_queued_start (self : t) : Signal.t TraceConnectionQueuedStartParams.t := _on_connection_queued_start self.
Definition on_connection_queued_end (self : t) : Signal.t TraceConnectionQueuedEndParams.t := _on_connection_queued_end self.
Definition on_connection_create_start (self : t) : Signal.t TraceConnectionCreateStartParams.t := _on_connection_create_start self.
Definition on_connection_create_end (self : t) : Signal.t TraceConnectionCreateEndParams.t := _on_connection_create_end self.
Definition on_connection_reuseconn (self : t) : Signal.t TraceConnectionReuseconnParams.t := _on_connection_reuseconn self.
Definition on_dns_resolvehost_start (self : t) : Signal.t TraceDnsResolveHostStartParams.t := _on_dns_resolvehost_start self.
Definition on_dns_resolvehost_end (self : t) : Signal.t TraceDnsResolveHostEndParams.t := _on_dns_resolvehost_end self.
Definition on_dns_cache_hit (self : t) : Signal.t TraceDnsCacheHitParams.t := _on_dns_cache_hit self.
Definition on_dns_cache_miss (self : t) : Signal.t TraceDnsCacheMissParams.t := _on_dns_cache_miss self.
Definition on_request_headers_sent (self : t) : Signal.t TraceRequestHeadersSentParams.t := _on_request_headers_sent self.

(** The configuration after a method call changed the state of the
    signal object one attribute holds (signals are mutated in place). *)
Definition set_on_request_start (s : Signal.t TraceRequestStartParams.t) (self : t) : t :=
  let '(Build_t s1 s2 s3 s4 s5 s6 s7 s8 s9 s10 s11 s12 s13 s14 s15 s16 f) := self in
  Build_t s s2 s3 s4 s5 s6 s7 s8 s9 s10 s11 s12 s13 s14 s15 s16 f.
Definition set_on_request_chunk_sent (s : Signal.t TraceRequestChunkSentParams.t) (self : t) : t :=
  let '(Build_t s1 s2 s3 s4 s5 s6 s7 s8 s9 s10 s11 s12 s13 s14 s15 s16 f) := self in
  Build_t s1 s s3 s4 s5 s6 s7 s8 s9 s10 s11 s12 s13 s14 s15 s16 f.
Definition set_on_response_chunk_received (s : Signal.t TraceResponseChunkReceivedParams.t) (self : t) : t :=
  let '(Build_t s1 s2 s3 s4 s5 s6 s7 s8 s9 s10 s11 s12 s13 s14 s15 s16 f) := self in
  Build_t s1 s2 s s4 s5 s6 s7 s8 s9 s10 s11 s12 s13 s14 s15 s16 f.
Definition set_on_request_end (s : Signal.t TraceRequestEndParams.t) (self : t) : t :=
  let '(Build_t s1 s2 s3 s4 s5 s6 s7 s8 s9 s10 s11 s12 s13 s14 s15 s16 f) := self in
  Build_t s1 s2 s3 s s5 s6 s7 s8 s9 s10 s11 s12 s13 s14 s15 s16 f.
Definition set_on_request_exception (s : Signal.t TraceRequestExceptionParams.t) (self : t) : t :=
  let '(Build_t s1 s2 s3 s4 s5 s6 s7 s8 s9 s10 s11 s12 s13 s14 s15 s16 f) := self in
  Build_t s1 s2 s3 s4 s s6 s7 s8 s9 s10 s11 s12 s13 s14 s15 s16 f.
Definition set_on_request_redirect (s : Signal.t TraceRequestRedirectParams.t) (self : t) : t :=
  let '(Build_t s1 s2 s3 s4 s5 s6 s7 s8 s9 s10 s11 s12 s13 s14 s15 s16 f) := self in
  Build_t s1 s2 s3 s4 s5 s s7 s8 s9 s10 s11 s12 s13 s14 s15 s16 f.
Definition set_on_connection_queued_start (s : Signal.t TraceConnectionQueuedStartParams.t) (self : t) : t :=
  let '(Build_t s1 s2 s3 s4 s5 s6 s7 s8 s9 s10 s11 s12 s13 s14 s15 s16 f) := self in
  Build_t s1 s2 s3 s4 s5 s6 s s8 s9 s10 s11 s12 s13 s14 s15 s16 f.
Definition set_on_connection_queued_end (s : Signal.t TraceConnectionQueuedEndParams.t) (self : t) : t :=
  let '(Build_t s1 s2 s3 s4 s5 s6 s7 s8 s9 s10 s11 s12 s13 s14 s15 s16 f) := self in
  Build_t s1 s2 s3 s4 s5 s6 s7 s s9 s10 s11 s12 s13 s14 s15 s16 f.
Definition set_on_connection_create_start (s : Signal.t TraceConnectionCreateStartParams.t) (self : t) : t :=
  let '(Build_t s1 s2 s3 s4 s5 s6 s7 s8 s9 s10 s11 s12 s13 s14 s15 s16 f) := self in
  Build_t s1 s2 s3 s4 s5 s6 s7 s8 s s10 s11 s12 s13 s14 s15 s16 f.
Definition set_on_connection_create_end (s : Signal.t TraceConnectionCreateEndParams.t) (self : t) : t :=
  let '(Build_t s1 s2 s3 s4 s5 s6 s7 s8 s9 s10 s11 s12 s13 s14 s15 s16 f) := self in
  Build_t s1 s2 s3 s4 s5 s6 s7 s8 s9 s s11 s12 s13 s14 s15 s16 f.
Definition set_on_connection_reuseconn (s : Signal.t TraceConnectionReuseconnParams.t) (self : t) : t :=
  let '(Build_t s1 s2 s3 s4 s5 s6 s7 s8 s9 s10 s11 s12 s13 s14 s15 s16 f) := self in
  Build_t s1 s2 s3 s4 s5 s6 s7 s8 s9 s10 s s12 s13 s14 s15 s16 f.
Definition set_on_dns_resolvehost_start (s : Signal.t TraceDnsResolveHostStartParams.t) (self : t) : t :=
  let '(Build_t s1 s2 s3 s4 s5 s6 s7 s8 s9 s10 s11 s12 s13 s14 s15 s16 f) := self in
  Build_t s1 s2 s3 s4 s5 s6 s7 s8 s9 s10 s11 s s13 s14 s15 s16 f.
Definition set_on_dns_resolvehost_end (s : Signal.t TraceDnsResolveHostEndParams.t) (self : t) : t :=
  let '(Build_t s1 s2 s3 s4 s5 s6 s7 s8 s9 s10 s11 s12 s13 s14 s15 s16 f) := self in
  Build_t s1 s2 s3 s4 s5 s6 s7 s8 s9 s10 s11 s12 s s14 s15 s16 f.
Definition set_on_dns_cache_hit (s : Signal.t TraceDnsCacheHitParams.t) (self : t) : t :=
  let '(Build_t s1 s2 s3 s4 s5 s6 s7 s8 s9 s10 s11 s12 s13 s14 s15 s16 f) := self in
  Build_t s1 s2 s3 s4 s5 s6 s7 s8 s9 s10 s11 s12 s13 s s15 s16 f.
Definition set_on_dns_cache_miss (s : Signal.t TraceDnsCacheMissParams.t) (self : t) : t :=
  let '(Build_t s1 s2 s3 s4 s5 s6 s7 s8 s9 s10 s11 s12 s13 s14 s15 s16 f) := self in
  Build_t s1 s2 s3 s4 s5 s6 s7 s8 s9 s10 s11 s12 s13 s14 s s16 f.
Definition set_on_request_headers_sent (s : Signal.t TraceRequestHeadersSentParams.t) (self : t) : t :=
  let '(Build_t s1 s2 s3 s4 s5 s6 s7 s8 s9 s10 s11 s12 s13 s14 s15 s16 f) := self in
  Build_t s1 s2 s3 s4 s5 s6 s7 s8 s9 s10 s11 s12 s13 s14 s15 s f.

(** [freeze]: sixteen calls of [Signal.freeze], in this order, each on
    the signal object the attribute holds. *)
Definition freeze (self : t) : t :=
  let self := set_on_request_start (Signal.freeze (_on_request_start self)) self in
  let self := set_on_request_chunk_sent (Signal.freeze (_on_request_chunk_sent self)) self in
  let self := set_on_response_chunk_received (Signal.freeze (_on_response_chunk_received self)) self in
  let self := set_on_request_end (Signal.freeze (_on_request_end self)) self in
  let self := set_on_request_exception (Signal.freeze (_on_request_exception self)) self in
  let self := set_on_request_redirect (Signal.freeze (_on_request_redirect self)) self in
  let self := set_on_connection_queued_start (Signal.freeze (_on_connection_queued_start self)) self in
  let self := set_on_connection_queued_end (Signal.freeze (_on_connection_queued_end self)) self in
  let self := set_on_connection_create_start (Signal.freeze (_on_connection_create_start self)) self in
  let self := set_on_connection_create_end (Signal.freeze (_on_connection_create_end self)) self in
  let self := set_on_connection_reuseconn (Signal.freeze (_on_connection_reuseconn self)) self in
  let self := set_on_dns_resolvehost_start (Signal.freeze (_on_dns_resolvehost_start self)) self in
  let self := set_on_dns_resolvehost_end (Signal.freeze (_on_dns_resolvehost_end self)) self in
  let self := set_on_dns_cache_hit (Signal.freeze (_on_dns_cache_hit self)) self in
  let self := set_on_dns_cache_miss (Signal.freeze (_on_dns_cache_miss self)) self in
  let self := set_on_request_headers_sent (Signal.freeze (_on_request_headers_sent self)) self in
  self.

End TraceConfig.

(** ** Trace *)

Module Trace.

(** Internal dependency holder class.  The record holds its TraceConfig as
    the configuration stands when a [send_*] method runs. *)
Record t : Type := {
  _trace_config : TraceConfig.t;
  _trace_config_ctx : val;
  _session : ClientSession
}.

Definition __init__ (session : ClientSession) (trace_config : TraceConfig.t)
    (trace_config_ctx : val) : t :=
  {| _trace_config := trace_config;
     _trace_config_ctx := trace_config_ctx;
     _session := session |}.

Definition send_request_start (self : t) (method : str) (url : URL) (headers : CIMultiDict)
  : heap -> Signal.Run TraceRequestStartParams.t :=
  Signal.send (TraceConfig.on_request_start (_trace_config self))
    (_session self) (_trace_config_ctx self)
    (TraceRequestStartParams.make method url headers).

Definition send_request_chunk_sent (self : t) (method : str) (url : URL) (chunk : bytes)
  : heap -> Signal.Run TraceRequestChunkSentParams.t :=
  Signal.send (TraceConfig.on_request_chunk_sent (_trace_config self))
    (_session self) (_trace_config_ctx self)
    (TraceRequestChunkSentParams.make method url chunk).

Definition send_response_chunk_received (self : t) (method : str) (url : URL) (chunk : bytes)
  : heap -> Signal.Run TraceResponseChunkReceivedParams.t :=
  Signal.send (TraceConfig.on_response_chunk_received (_trace_config self))
    (_session self) (_trace_config_ctx self)
    (TraceResponseChunkReceivedParams.make method url chunk).

Definition send_request_end (self : t) (method : str) (url : URL) (headers : CIMultiDict) (response : ClientResponse)
  : heap -> Signal.Run TraceRequestEndParams.t :=
  Signal.send (TraceConfig.on_request_end (_trace_config self))
    (_session self) (_trace_config_ctx self)
    (TraceRequestEndParams.make method url headers response).

Definition send_request_exception (self : t) (method : str) (url : URL) (headers : CIMultiDict) (exception : BaseException)
  : heap -> Signal.Run TraceRequestExceptionParams.t :=
  Signal.send (TraceConfig.on_request_exception (_trace_config self))
    (_session self) (_trace_config_ctx self)
    (TraceRequestExceptionParams.make method url headers exception).

Definition send_request_redirect (self : t) (method : str) (url : URL) (headers : CIMultiDict) (response : ClientResponse)
  : heap -> Signal.Run TraceRequestRedirectParams.t :=
  Signal.send (TraceConfig._on_request_redirect (_trace_config self))
    (_session self) (_trace_config_ctx self)
    (TraceRequestRedirectParams.make method url headers response).

Definition send_connection_queued_start (self : t)
  : heap -> Signal.Run TraceConnectionQueuedStartParams.t :=
  Signal.send (TraceConfig.on_connection_queued_start (_trace_config self))
    (_session self) (_trace_config_ctx self)
    TraceConnectionQueuedStartParams.make.

Definition send_connection_queued_end (self : t)
  : heap -> Signal.Run TraceConnectionQueuedEndParams.t :=
  Signal.send (TraceConfig.on_connection_queued_end (_trace_config self))
    (_session self) (_trace_config_ctx self)
    TraceConnectionQueuedEndParams.make.

Definition send_connection_create_start (self : t)
  : heap -> Signal.Run TraceConnectionCreateStartParams.t :=
  Signal.send (TraceConfig.on_connection_create_start (_trace_config self))
    (_session self) (_trace_config_ctx self)
    TraceConnectionCreateStartParams.make.

Definition send_connection_create_end (self : t)
  : heap -> Signal.Run TraceConnectionCreateEndParams.t :=
  Signal.send (TraceConfig.on_connection_create_end (_trace_config self))
    (_session self) (_trace_config_ctx self)
    TraceConnectionCreateEndParams.make.

Definition send_connection_reuseconn (self : t)
  : heap -> Signal.Run TraceConnectionReuseconnParams.t :=
  Signal.send (TraceConfig.on_connection_reuseconn (_trace_config self))
    (_session self) (_trace_config_ctx self)
    TraceConnectionReuseconnParams.make.

Definition send_dns_resolvehost_start (self : t) (host : str)
  : heap -> Signal.Run TraceDnsResolveHostStartParams.t :=
  Signal.send (TraceConfig.on_dns_resolvehost_start (_trace_config self))
    (_session self) (_trace_config_ctx self)
    (TraceDnsResolveHostStartParams.make host).

Definition send_dns_resolvehost_end (self : t) (host : str)
  : heap -> Signal.Run TraceDnsResolveHostEndParams.t :=
  Signal.send (TraceConfig.on_dns_resolvehost_end (_trace_config self))
    (_session self) (_trace_config_ctx self)
    (TraceDnsResolveHostEndParams.make host).

Definition send_dns_cache_hit (self : t) (host : str)
  : heap -> Signal.Run TraceDnsCacheHitParams.t :=
  Signal.send (TraceConfig.on_dns_cache_hit (_trace_config self))
    (_session self) (_trace_config_ctx self)
    (TraceDnsCacheHitParams.make host).

Definition send_dns_cache_miss (self : t) (host : str)
  : heap -> Signal.Run TraceDnsCacheMissParams.t :=
  Signal.send (TraceConfig.on_dns_cache_miss (_trace_config self))
    (_session self) (_trace_config_ctx self)
    (TraceDnsCacheMissParams.make host).

Definition send_request_headers (self : t) (method : str) (url : URL) (headers : CIMultiDict)
  : heap -> Signal.Run TraceRequestHeadersSentParams.t :=
  Signal.send (TraceConfig._on_request_headers_sent (_trace_config self))
    (_session self) (_trace_config_ctx self)
    (TraceRequestHeadersSentParams.make method url headers).

End Trace.

(** ** The sixteen signals and the sixteen send methods as data *)

(** The payload of any of the sixteen kinds. *)
Inductive TraceParams : Type :=
| P_request_start (p : TraceRequestStartParams.t)
| P_request_chunk_sent (p : TraceRequestChunkSentParams.t)
| P_response_chunk_received (p : TraceResponseChunkReceivedParams.t)
| P_request_end (p : TraceRequestEndParams.t)
| P_request_exception (p : TraceRequestExceptionParams.t)
| P_request_redirect (p : TraceRequestRedirectParams.t)
| P_connection_queued_start (p : TraceConnectionQueuedStartParams.t)
| P_connection_queued_end (p : TraceConnectionQueuedEndParams.t)
| P_connection_create_start (p : TraceConnectionCreateStartParams.t)
| P_connection_create_end (p : TraceConnectionCreateEndParams.t)
| P_connection_reuseconn (p : TraceConnectionReuseconnParams.t)
| P_dns_resolvehost_start (p : TraceDnsResolveHostStartParams.t)
| P_dns_resolvehost_end (p : TraceDnsResolveHostEndParams.t)
| P_dns_cache_hit (p : TraceDnsCacheHitParams.t)
| P_dns_cache_miss (p : TraceDnsCacheMissParams.t)
| P_request_headers_sent (p : TraceRequestHeadersSentParams.t).

(** The fields of a payload, whatever its kind. *)
Definition fields (p : TraceParams) : list (string * field_value) :=
  match p with
  | P_request_start p => TraceRequestStartParams.fields p
  | P_request_chunk_sent p => TraceRequestChunkSentParams.fields p
  | P_response_chunk_received p => TraceResponseChunkReceivedParams.fields p
  | P_request_end p => TraceRequestEndParams.fields p
  | P_request_exception p => TraceRequestExceptionParams.fields p
  | P_request_redirect p => TraceRequestRedirectParams.fields p
  | P_connection_queued_start p => TraceConnectionQueuedStartParams.fields p
  | P_connection_queued_end p => TraceConnectionQueuedEndParams.fields p
  | P_connection_create_start p => TraceConnectionCreateStartParams.fields p
  | P_connection_create_end p => TraceConnectionCreateEndParams.fields p
  | P_connection_reuseconn p => TraceConnectionReuseconnParams.fields p
  | P_dns_resolvehost_start p => TraceDnsResolveHostStartParams.fields p
  | P_dns_resolvehost_end p => TraceDnsResolveHostEndParams.fields p
  | P_dns_cache_hit p => TraceDnsCacheHitParams.fields p
  | P_dns_cache_miss p => TraceDnsCacheMissParams.fields p
  | P_request_headers_sent p => TraceRequestHeadersSentParams.fields p
  end.

(** The names of the signals a TraceConfig owns. *)
Module SignalName.
Inductive t : Type :=
| on_request_start
| on_request_chunk_sent
| on_response_chunk_received
| on_request_end
| on_request_exception
| on_request_redirect
| on_connection_queued_start
| on_connection_queued_end
| on_connection_create_start
| on_connection_create_end
| on_connection_reuseconn
| on_dns_resolvehost_start
| on_dns_resolvehost_end
| on_dns_cache_hit
| on_dns_cache_miss
| on_request_headers_sent.

#[global] Instance eq_dec : EqDecision t.
Proof. solve_decision. Defined.

Definition all : list t :=
  [on_request_start;
   on_request_chunk_sent;
   on_response_chunk_received;
   on_request_end;
   on_request_exception;
   on_request_redirect;
   on_connection_queued_start;
   on_connection_queued_end;
   on_connection_create_start;
   on_connection_create_end;
   on_connection_reuseconn;
   on_dns_resolvehost_start;
   on_dns_resolvehost_end;
   on_dns_cache_hit;
   on_dns_cache_miss;
   on_request_headers_sent].

(** The payload type of each signal. *)
Definition params (s : t) : Type :=
  match s with
  | on_request_start => TraceRequestStartParams.t
  | on_request_chunk_sent => TraceRequestChunkSentParams.t
  | on_response_chunk_received => TraceResponseChunkReceivedParams.t
  | on_request_end => TraceRequestEndParams.t
  | on_request_exception => TraceRequestExceptionParams.t
  | on_request_redirect => TraceRequestRedirectParams.t
  | on_connection_queued_start => TraceConnectionQueuedStartParams.t
  | on_connection_queued_end => TraceConnectionQueuedEndParams.t
  | on_connection_create_start => TraceConnectionCreateStartParams.t
  | on_connection_create_end => TraceConnectionCreateEndParams.t
  | on_connection_reuseconn => TraceConnectionReuseconnParams.t
  | on_dns_resolvehost_start => TraceDnsResolveHostStartParams.t
  | on_dns_resolvehost_end => TraceDnsResolveHostEndParams.t
  | on_dns_cache_hit => TraceDnsCacheHitParams.t
  | on_dns_cache_miss => TraceDnsCacheMissParams.t
  | on_request_headers_sent => TraceRequestHeadersSentParams.t
  end.

Definition inject (s : t) : params s -> TraceParams :=
  match s with
  | on_request_start => P_request_start
  | on_request_chunk_sent => P_request_chunk_sent
  | on_response_chunk_received => P_response_chunk_received
  | on_request_end => P_request_end
  | on_request_exception => P_request_exception
  | on_request_redirect => P_request_redirect
  | on_connection_queued_start => P_connection_queued_start
  | on_connection_queued_end => P_connection_queued_end
  | on_connection_create_start => P_connection_create_start
  | on_connection_create_end => P_connection_create_end
  | on_connection_reuseconn => P_connection_reuseconn
  | on_dns_resolvehost_start => P_dns_resolvehost_start
  | on_dns_resolvehost_end => P_dns_resolvehost_end
  | on_dns_cache_hit => P_dns_cache_hit
  | on_dns_cache_miss => P_dns_cache_miss
  | on_request_headers_sent => P_request_headers_sent
  end.

(** The signal object of that name in a configuration. *)
Definition get (s : t) (cfg : TraceConfig.t) : Signal.t (params s) :=
  match s with
  | on_request_start => TraceConfig._on_request_start cfg
  | on_request_chunk_sent => TraceConfig._on_request_chunk_sent cfg
  | on_response_chunk_received => TraceConfig._on_response_chunk_received cfg
  | on_request_end => TraceConfig._on_request_end cfg
  | on_request_exception => TraceConfig._on_request_exception cfg
  | on_request_redirect => TraceConfig._on_request_redirect cfg
  | on_connection_queued_start => TraceConfig._on_connection_queued_start cfg
  | on_connection_queued_end => TraceConfig._on_connection_queued_end cfg
  | on_connection_create_start => TraceConfig._on_connection_create_start cfg
  | on_connection_create_end => TraceConfig._on_connection_create_end cfg
  | on_connection_reuseconn => TraceConfig._on_connection_reuseconn cfg
  | on_dns_resolvehost_start => TraceConfig._on_dns_resolvehost_start cfg
  | on_dns_resolvehost_end => TraceConfig._on_dns_resolvehost_end cfg
  | on_dns_cache_hit => TraceConfig._on_dns_cache_hit cfg
  | on_dns_cache_miss => TraceConfig._on_dns_cache_miss cfg
  | on_request_headers_sent => TraceConfig._on_request_headers_sent cfg
  end.

(** The configuration in which the signal of that name has a new state. *)
Definition set (s : t) : Signal.t (params s) -> TraceConfig.t -> TraceConfig.t :=
  match s with
  | on_request_start => TraceConfig.set_on_request_start
  | on_request_chunk_sent => TraceConfig.set_on_request_chunk_sent
  | on_response_chunk_received => TraceConfig.set_on_response_chunk_received
  | on_request_end => TraceConfig.set_on_request_end
  | on_request_exception => TraceConfig.set_on_request_exception
  | on_request_redirect => TraceConfig.set_on_request_redirect
  | on_connection_queued_start => TraceConfig.set_on_connection_queued_start
  | on_connection_queued_end => TraceConfig.set_on_connection_queued_end
  | on_connection_create_start => TraceConfig.set_on_connection_create_start
  | on_connection_create_end => TraceConfig.set_on_connection_create_end
  | on_connection_reuseconn => TraceConfig.set_on_connection_reuseconn
  | on_dns_resolvehost_start => TraceConfig.set_on_dns_resolvehost_start
  | on_dns_resolvehost_end => TraceConfig.set_on_dns_resolvehost_end
  | on_dns_cache_hit => TraceConfig.set_on_dns_cache_hit
  | on_dns_cache_miss => TraceConfig.set_on_dns_cache_miss
  | on_request_headers_sent => TraceConfig.set_on_request_headers_sent
  end.

End SignalName.

(** The names of the send methods of a Trace. *)
Module Method.
Inductive t : Type :=
| send_request_start
| send_request_chunk_sent
| send_response_chunk_received
| send_request_end
| send_request_exception
| send_request_redirect
| send_connection_queued_start
| send_connection_queued_end
| send_connection_create_start
| send_connection_create_end
| send_connection_reuseconn
| send_dns_resolvehost_start
| send_dns_resolvehost_end
| send_dns_cache_hit
| send_dns_cache_miss
| send_request_headers.

#[global] Instance eq_dec : EqDecision t.
Proof. solve_decision. Defined.

Definition all : list t :=
  [send_request_start;
   send_request_chunk_sent;
   send_response_chunk_received;
   send_request_end;
   send_request_exception;
   send_request_redirect;
   send_connection_queued_start;
   send_connection_queued_end;
   send_connection_create_start;
   send_connection_create_end;
   send_connection_reuseconn;
   send_dns_resolvehost_start;
   send_dns_resolvehost_end;
   send_dns_cache_hit;
   send_dns_cache_miss;
   send_request_headers].

(** The signal the body of each method sends on. *)
Definition signal (m : t) : SignalName.t :=
  match m with
  | send_request_start => SignalName.on_request_start
  | send_request_chunk_sent => SignalName.on_request_chunk_sent
  | send_response_chunk_received => SignalName.on_response_chunk_received
  | send_request_end => SignalName.on_request_end
  | send_request_exception => SignalName.on_request_exception
  | send_request_redirect => SignalName.on_request_redirect
  | send_connection_queued_start => SignalName.on_connection_queued_start
  | send_connection_queued_end => SignalName.on_connection_queued_end
  | send_connection_create_start => SignalName.on_connection_create_start
  | send_connection_create_end => SignalName.on_connection_create_end
  | send_connection_reuseconn => SignalName.on_connection_reuseconn
  | send_dns_resolvehost_start => SignalName.on_dns_resolvehost_start
  | send_dns_resolvehost_end => SignalName.on_dns_resolvehost_end
  | send_dns_cache_hit => SignalName.on_dns_cache_hit
  | send_dns_cache_miss => SignalName.on_dns_cache_miss
  | send_request_headers => SignalName.on_request_headers_sent
  end.
End Method.

(** A call of a send method: the method and its arguments. *)
Module Call.
Inductive t : Type :=
| send_request_start (method : str) (url : URL) (headers : CIMultiDict)
| send_request_chunk_sent (method : str) (url : URL) (chunk : bytes)
| send_response_chunk_received (method : str) (url : URL) (chunk : bytes)
| send_request_end (method : str) (url : URL) (headers : CIMultiDict) (response : ClientResponse)
| send_request_exception (method : str) (url : URL) (headers : CIMultiDict) (exception : BaseException)
| send_request_redirect (method : str) (url : URL) (headers : CIMultiDict) (response : ClientResponse)
| send_connection_queued_start
| send_connection_queued_end
| send_connection_create_start
| send_connection_create_end
| send_connection_reuseconn
| send_dns_resolvehost_start (host : str)
| send_dns_resolvehost_end (host : str)
| send_dns_cache_hit (host : str)
| send_dns_cache_miss (host : str)
| send_request_headers (method : str) (url : URL) (headers : CIMultiDict).

Definition method_of (c : t) : Method.t :=
  match c with
  | send_request_start _ _ _ => Method.send_request_start
  | send_request_chunk_sent _ _ _ => Method.send_request_chunk_sent
  | send_response_chunk_received _ _ _ => Method.send_response_chunk_received
  | send_request_end _ _ _ _ => Method.send_request_end
  | send_request_exception _ _ _ _ => Method.send_request_exception
  | send_request_redirect _ _ _ _ => Method.send_request_redirect
  | send_connection_queued_start => Method.send_connection_queued_start
  | send_connection_queued_end => Method.send_connection_queued_end
  | send_connection_create_start => Method.send_connection_create_start
  | send_connection_create_end => Method.send_connection_create_end
  | send_connection_reuseconn => Method.send_connection_reuseconn
  | send_dns_resolvehost_start _ => Method.send_dns_resolvehost_start
  | send_dns_resolvehost_end _ => Method.send_dns_resolvehost_end
  | send_dns_cache_hit _ => Method.send_dns_cache_hit
  | send_dns_cache_miss _ => Method.send_dns_cache_miss
  | send_request_headers _ _ _ => Method.send_request_headers
  end.

(** The arguments of the call, by parameter name, in the order of the
    method's signature. *)
Definition arguments (c : t) : list (string * field_value) :=
  match c with
  | send_request_start method url headers =>
      [("method", FStr method); ("url", FURL url); ("headers", FHeaders headers)]
  | send_request_chunk_sent method url chunk =>
      [("method", FStr method); ("url", FURL url); ("chunk", FBytes chunk)]
  | send_response_chunk_received method url chunk =>
      [("method", FStr method); ("url", FURL url); ("chunk", FBytes chunk)]
  | send_request_end method url headers response =>
      [("method", FStr method); ("url", FURL url); ("headers", FHeaders headers); ("response", FResponse response)]
  | send_request_exception method url headers exception =>
      [("method", FStr method); ("url", FURL url); ("headers", FHeaders headers); ("exception", FException exception)]
  | send_request_redirect method url headers response =>
      [("method", FStr method); ("url", FURL url); ("headers", FHeaders headers); ("response", FResponse response)]
  | send_connection_queued_start =>
      []
  | send_connection_queued_end =>
      []
  | send_connection_create_start =>
      []
  | send_connection_create_end =>
      []
  | send_connection_reuseconn =>
      []
  | send_dns_resolvehost_start host =>
      [("host", FStr host)]
  | send_dns_resolvehost_end host =>
      [("host", FStr host)]
  | send_dns_cache_hit host =>
      [("host", FStr host)]
  | send_dns_cache_miss host =>
      [("host", FStr host)]
  | send_request_headers method url headers =>
      [("method", FStr method); ("url", FURL url); ("headers", FHeaders headers)]
  end.

(** The payload the body of the method builds from the arguments. *)
Definition payload (c : t)
  : SignalName.params (Method.signal (method_of c)) :=
  match c as c0
  return SignalName.params (Method.signal (method_of c0)) with
  | send_request_start method url headers => TraceRequestStartParams.make method url headers
  | send_request_chunk_sent method url chunk => TraceRequestChunkSentParams.make method url chunk
  | send_response_chunk_received method url chunk => TraceResponseChunkReceivedParams.make method url chunk
  | send_request_end method url headers response => TraceRequestEndParams.make method url headers response
  | send_request_exception method url headers exception => TraceRequestExceptionParams.make method url headers exception
  | send_request_redirect method url headers response => TraceRequestRedirectParams.make method url headers response
  | send_connection_queued_start => TraceConnectionQueuedStartParams.make
  | send_connection_queued_end => TraceConnectionQueuedEndParams.make
  | send_connection_create_start => TraceConnectionCreateStartParams.make
  | send_connection_create_end => TraceConnectionCreateEndParams.make
  | send_connection_reuseconn => TraceConnectionReuseconnParams.make
  | send_dns_resolvehost_start host => TraceDnsResolveHostStartParams.make host
  | send_dns_resolvehost_end host => TraceDnsResolveHostEndParams.make host
  | send_dns_cache_hit host => TraceDnsCacheHitParams.make host
  | send_dns_cache_miss host => TraceDnsCacheMissParams.make host
  | send_request_headers method url headers => TraceRequestHeadersSentParams.make method url headers
  end.
End Call.

(** A run whose invocations carry their payload as a [TraceParams]. *)
Definition relabel {P Q : Type} (f : P -> Q) (r : Signal.Run P)
  : Signal.Run Q :=
  {| Signal.outcome := Signal.outcome r;
     Signal.final := Signal.final r;
     Signal.invoked :=
       map (fun i => Signal.Build_Invocation (Signal.callee i)
                       (Signal.owner i) (Signal.context i)
                       (f (Signal.payload i)))
           (Signal.invoked r) |}.

(** Awaiting a call of a send method of the trace [self]. *)
Definition perform (self : Trace.t) (c : Call.t) (h : heap)
  : Signal.Run TraceParams :=
  match c with
  | Call.send_request_start method url headers =>
      relabel P_request_start (Trace.send_request_start self method url headers h)
  | Call.send_request_chunk_sent method url chunk =>
      relabel P_request_chunk_sent (Trace.send_request_chunk_sent self method url chunk h)
  | Call.send_response_chunk_received method url chunk =>
      relabel P_response_chunk_received (Trace.send_response_chunk_received self method url chunk h)
  | Call.send_request_end method url headers response =>
      relabel P_request_end (Trace.send_request_end self method url headers response h)
  | Call.send_request_exception method url headers exception =>
      relabel P_request_exception (Trace.send_request_exception self method url headers exception h)
  | Call.send_request_redirect method url headers response =>
      relabel P_request_redirect (Trace.send_request_redirect self method url headers response h)
  | Call.send_connection_queued_start =>
      relabel P_connection_queued_start (Trace.send_connection_queued_start self h)
  | Call.send_connection_queued_end =>
      relabel P_connection_queued_end (Trace.send_connection_queued_end self h)
  | Call.send_connection_create_start =>
      relabel P_connection_create_start (Trace.send_connection_create_start self h)
  | Call.send_connection_create_end =>
      relabel P_connection_create_end (Trace.send_connection_create_end self h)
  | Call.send_connection_reuseconn =>
      relabel P_connection_reuseconn (Trace.send_connection_reuseconn self h)
  | Call.send_dns_resolvehost_start host =>
      relabel P_dns_resolvehost_start (Trace.send_dns_resolvehost_start self host h)
  | Call.send_dns_resolvehost_end host =>
      relabel P_dns_resolvehost_end (Trace.send_dns_resolvehost_end self host h)
  | Call.send_dns_cache_hit host =>
      relabel P_dns_cache_hit (Trace.send_dns_cache_hit self host h)
  | Call.send_dns_cache_miss host =>
      relabel P_dns_cache_miss (Trace.send_dns_cache_miss self host h)
  | Call.send_request_headers method url headers =>
      relabel P_request_headers_sent (Trace.send_request_headers self method url headers h)
  end.

(** ** Notions the statements use *)

(** Every one of the sixteen signals of the configuration is frozen. *)
Definition all_frozen (cfg : TraceConfig.t) : Prop :=
  forall s : SignalName.t, Signal.frozen (SignalName.get s cfg) = true.

(** The value is a reference to an object that is alive in the store. *)
Definition live (v : val) (h : heap) : Prop :=
  match v with
  | VRef l => is_Some (h !! l)
  | _ => False
  end.

(** The factory constructs a new object at every call: it returns a
    reference to an object that did not exist before the call and exists
    after it. *)
Definition constructs_fresh (f : _Factory) : Prop :=
  forall (kwargs : namespace) (h : heap),
    exists (l : loc) (h' : heap),
      f kwargs h = (Ok (VRef l), h') /\ h !! l = None /\ is_Some (h' !! l).

(** The factory does not accept the keyword [name]: a call that passes it
    raises TypeError before any statement of the body runs. *)
Definition rejects (name : string) (f : _Factory) : Prop :=
  forall (kwargs : namespace) (h : heap),
    is_Some (kwargs !! name) ->
    exists msg : string, f kwargs h = (Raise (TypeError msg), h).

(** The attributes of the object a call returned, if it returned one. *)
Definition returned_object (r : result val * heap) : option namespace :=
  match r with
  | (Ok (VRef l), h) => h !! l
  | _ => None
  end.

(** Listener [l] raises [e] at some point of the run that starts in [h]:
    it is reached (the listeners before it return) and its body raises. *)
Definition raises_in {P : Type} (ls : list (Signal.Listener P))
    (o : ClientSession) (c : val) (p : P) (h : heap) (e : exn) : Prop :=
  exists (pre post : list (Signal.Listener P)) (l : Signal.Listener P),
    ls = pre ++ l :: post /\
    Signal.outcome (Signal.run_listeners pre o c p h) = Ok tt /\
    fst (Signal.call l o c p (Signal.effects pre o c p h)) = Raise e.

(** What one send that starts in [h0] and leaves the run [r] does, on a
    frozen signal with the listeners [ls]: it invokes an initial segment
    of [ls]; all of it when it returns, each listener starting in the
    store its predecessor left; and when it raises, the segment that ends
    with the listener that raised. *)
Definition sends_in_order {P : Type} (ls : list (Signal.Listener P))
    (o : ClientSession) (c : val) (p : P) (h0 : heap) (r : Signal.Run P)
  : Prop :=
  Signal.invoked r `prefix_of` map (Signal.invocation o c p) ls
  /\ (Signal.outcome r = Ok tt ->
      Signal.invoked r = map (Signal.invocation o c p) ls
      /\ Signal.final r = Signal.effects ls o c p h0)
  /\ (forall e, Signal.outcome r = Raise e ->
      exists pre l post,
        ls = pre ++ l :: post
        /\ Signal.invoked r = map (Signal.invocation o c p) (pre ++ [l])
        /\ Signal.outcome (Signal.run_listeners pre o c p h0) = Ok tt
        /\ fst (Signal.call l o c p (Signal.effects pre o c p h0)) = Raise e).

(** The stores in which the sends of [Signal.send_each] start: the first
    in [h], each later one in the store the send before it left. *)
Fixpoint send_starts {P : Type} (self : Signal.t P)
    (calls : list (ClientSession * val * P)) (h : heap) : list heap :=
  match calls with
  | [] => []
  | (o, c, p) :: rest =>
      h :: send_starts self rest (Signal.final (Signal.send self o c p h))
  end.

(** Every listener of [ls] returns when the chain is run from the store
    [h], each listener starting in the store its predecessor left: no
    listener raises. *)
Fixpoint returns_through {P : Type} (ls : list (Signal.Listener P))
    (o : ClientSession) (c : val) (p : P) (h : heap) : Prop :=
  match ls with
  | [] => True
  | l :: rest =>
      fst (Signal.call l o c p h) = Ok tt
      /\ returns_through rest o c p (snd (Signal.call l o c p h))
  end.

(** In the chain [pre ++ l :: post] run from the store [h], [l] is the
    first listener that raises, and it raises [e]: the listeners of
    [pre] return, and [l], in the store they left, raises [e]. *)
Definition first_raise {P : Type} (pre : list (Signal.Listener P))
    (l : Signal.Listener P) (o : ClientSession) (c : val) (p : P)
    (h : heap) (e : exn) : Prop :=
  returns_through pre o c p h
  /\ fst (Signal.call l o c p (Signal.effects pre o c p h)) = Raise e.

(** What one send that starts in [h0] and leaves the run [r] does, on a
    frozen signal with the listeners [ls], told by what the listeners
    do.  When no listener raises, the send returns, has invoked exactly
    [ls], in order, and leaves the store the listeners left one after
    the other.  When [l] is the first listener that raises, the send
    raises what [l] raised, has invoked the listeners before [l] and
    then [l], and none after it, and leaves the store [l] left.  Every
    send is one of the two. *)
Definition sends_chain {P : Type} (ls : list (Signal.Listener P))
    (o : ClientSession) (c : val) (p : P) (h0 : heap) (r : Signal.Run P)
  : Prop :=
  (returns_through ls o c p h0 ->
   Signal.outcome r = Ok tt
   /\ Signal.invoked r = map (Signal.invocation o c p) ls
   /\ Signal.final r = Signal.effects ls o c p h0)
  /\ (forall pre l post e,
        ls = pre ++ l :: post ->
        first_raise pre l o c p h0 e ->
        Signal.outcome r = Raise e
        /\ Signal.invoked r = map (Signal.invocation o c p) (pre ++ [l])
        /\ Signal.final r
           = snd (Signal.call l o c p (Signal.effects pre o c p h0)))
  /\ (returns_through ls o c p h0
      \/ exists pre l post e,
           ls = pre ++ l :: post /\ first_raise pre l o c p h0 e).

(** ** Objects for the examples *)

(** [async def listener(session, ctx, params): pass] *)
Definition passing {P : Type} (id : nat) : Signal.Listener P :=
  {| Signal.callback_id := id;
     Signal.call := fun _ _ _ h => (Ok tt, h) |}.

(** [async def listener(session, ctx, params): setattr(ctx, name, v)] *)
Definition assigning {P : Type} (id : nat) (name : string) (v : val)
  : Signal.Listener P :=
  {| Signal.callback_id := id;
     Signal.call := fun _ ctx _ h =>
       match ctx with
       | VRef l => (Ok tt, setattr l name v h)
       | _ => (Raise (TypeError "object has no attributes"), h)
       end |}.

(** [async def listener(session, ctx, params): raise e] *)
Definition raising {P : Type} (id : nat) (e : exn) : Signal.Listener P :=
  {| Signal.callback_id := id;
     Signal.call := fun _ _ _ h => (Raise e, h) |}.

(** A factory declared without parameters, [def factory(): ...]: a call
    with a keyword argument raises TypeError, and the body does not run. *)
Definition without_parameters (body : heap -> result val * heap) : _Factory :=
  fun kwargs h =>
    if decide (kwargs = ∅) then body h
    else (Raise (TypeError "got an unexpected keyword argument"), h).

(** A factory that hands out one and the same object at every call. *)
Definition sharing (ctx : val) : _Factory :=
  fun _ h => (Ok ctx, h).

(** [signal.append(listener)] on a signal a configuration holds: the
    signal after the call, whether the call raised or not. *)
Definition registered {P : Type} (listener : Signal.Listener P)
    (signal : Signal.t P) : Signal.t P :=
  snd (Signal.append listener signal).

(** A configuration with the default factory, two listeners registered on
    [on_request_start] and three on [on_request_end], not yet frozen. *)
Definition example_config : TraceConfig.t :=
  let cfg := TraceConfig.__init__ None in
  let cfg := TraceConfig.set_on_request_start
    (registered (assigning 1 "t0" (VInt 7))
       (TraceConfig.on_request_start cfg)) cfg in
  let cfg := TraceConfig.set_on_request_start
    (registered (passing 2) (TraceConfig.on_request_start cfg)) cfg in
  let cfg := TraceConfig.set_on_request_end
    (registered (assigning 3 "seen" (VInt 1))
       (TraceConfig.on_request_end cfg)) cfg in
  let cfg := TraceConfig.set_on_request_end
    (registered (raising 4 (ValueError "boom"))
       (TraceConfig.on_request_end cfg)) cfg in
  let cfg := TraceConfig.set_on_request_end
    (registered (passing 5) (TraceConfig.on_request_end cfg)) cfg in
  cfg.

(** A store with two context objects, at addresses 1 and 2. *)
Definition example_heap : heap :=
  snd (alloc ∅ (snd (alloc ∅ ∅))).

(** Two traces of two request attempts on the frozen example
    configuration, of session 9, with the contexts at addresses 1 and 2. *)
Definition example_trace : Trace.t :=
  Trace.__init__ 9%positive (TraceConfig.freeze example_config)
    (VRef 1%positive).

Definition other_trace : Trace.t :=
  Trace.__init__ 9%positive (TraceConfig.freeze example_config)
    (VRef 2%positive).

Definition example_url : URL := mkURL "http://example.com/".

(** ** Registration through the properties *)

(** The signal the read-only property of that name returns. *)
Definition property (s : SignalName.t) (cfg : TraceConfig.t)
  : Signal.t (SignalName.params s) :=
  match s with
  | SignalName.on_request_start => TraceConfig.on_request_start cfg
  | SignalName.on_request_chunk_sent => TraceConfig.on_request_chunk_sent cfg
  | SignalName.on_response_chunk_received => TraceConfig.on_response_chunk_received cfg
  | SignalName.on_request_end => TraceConfig.on_request_end cfg
  | SignalName.on_request_exception => TraceConfig.on_request_exception cfg
  | SignalName.on_request_redirect => TraceConfig.on_request_redirect cfg
  | SignalName.on_connection_queued_start => TraceConfig.on_connection_queued_start cfg
  | SignalName.on_connection_queued_end => TraceConfig.on_connection_queued_end cfg
  | SignalName.on_connection_create_start => TraceConfig.on_connection_create_start cfg
  | SignalName.on_connection_create_end => TraceConfig.on_connection_create_end cfg
  | SignalName.on_connection_reuseconn => TraceConfig.on_connection_reuseconn cfg
  | SignalName.on_dns_resolvehost_start => TraceConfig.on_dns_resolvehost_start cfg
  | SignalName.on_dns_resolvehost_end => TraceConfig.on_dns_resolvehost_end cfg
  | SignalName.on_dns_cache_hit => TraceConfig.on_dns_cache_hit cfg
  | SignalName.on_dns_cache_miss => TraceConfig.on_dns_cache_miss cfg
  | SignalName.on_request_headers_sent => TraceConfig.on_request_headers_sent cfg
  end.

(** [cfg.on_<event>.append(listener)]: the property returns the signal
    object the private attribute holds, and [append] changes that object
    in place; the outcome of the call and the configuration after it. *)
Definition register (s : SignalName.t)
    (listener : Signal.Listener (SignalName.params s)) (cfg : TraceConfig.t)
  : result unit * TraceConfig.t :=
  let (r, signal) := Signal.append listener (property s cfg) in
  (r, SignalName.set s signal cfg).

(** * Facts *)

(** ** The listener loop *)

Section run_listeners_facts.
Context {P : Type}.
Implicit Types (ls pre post : list (Signal.Listener P)) (l : Signal.Listener P).
Implicit Types (o : ClientSession) (c : val) (p : P) (h : heap) (e : exn).

Lemma effects_cons l ls o c p h :
  Signal.effects (l :: ls) o c p h
  = Signal.effects ls o c p (snd (Signal.call l o c p h)).
Proof. reflexivity. Qed.

Lemma effects_app pre post o c p h :
  Signal.effects (pre ++ post) o c p h
  = Signal.effects post o c p (Signal.effects pre o c p h).
Proof. unfold Signal.effects. apply foldl_app. Qed.

(** The invocations of a run are an initial segment of the chain. *)
Lemma run_listeners_prefix ls o c p h :
  Signal.invoked (Signal.run_listeners ls o c p h)
    `prefix_of` map (Signal.invocation o c p) ls.
Proof.
  revert h. induction ls as [|l ls IH]; intros h; simpl.
  - reflexivity.
  - destruct (Signal.call l o c p h) as [[[]|e] h']; simpl.
    + apply prefix_cons, IH.
    + apply prefix_cons, prefix_nil.
Qed.

(** A run that returns has gone through the whole chain. *)
Lemma run_listeners_returns ls o c p h :
  Signal.outcome (Signal.run_listeners ls o c p h) = Ok tt ->
  Signal.invoked (Signal.run_listeners ls o c p h)
    = map (Signal.invocation o c p) ls
  /\ Signal.final (Signal.run_listeners ls o c p h)
    = Signal.effects ls o c p h.
Proof.
  revert h. induction ls as [|l ls IH]; intros h.
  - done.
  - rewrite effects_cons. simpl.
    destruct (Signal.call l o c p h) as [[[]|e] h']; simpl; [|done].
    intros Hok. destruct (IH h' Hok) as [-> ->]. done.
Qed.

(** The chain up to a listener that raises. *)
Lemma run_listeners_raise_at pre l post o c p h e h' :
  Signal.outcome (Signal.run_listeners pre o c p h) = Ok tt ->
  Signal.call l o c p (Signal.final (Signal.run_listeners pre o c p h))
    = (Raise e, h') ->
  Signal.run_listeners (pre ++ l :: post) o c p h
  = {| Signal.outcome := Raise e;
       Signal.final := h';
       Signal.invoked := map (Signal.invocation o c p) (pre ++ [l]) |}.
Proof.
  revert h. induction pre as [|a pre IH]; intros h; simpl.
  - intros _ ->. reflexivity.
  - destruct (Signal.call a o c p h) as [[[]|e0] h0]; simpl; [|done].
    intros Hok Hl. rewrite (IH h0 Hok Hl). reflexivity.
Qed.

(** A run that raises stopped at a listener that raised just that. *)
Lemma run_listeners_raises ls o c p h e :
  Signal.outcome (Signal.run_listeners ls o c p h) = Raise e ->
  exists pre l post,
    ls = pre ++ l :: post
    /\ Signal.outcome (Signal.run_listeners pre o c p h) = Ok tt
    /\ Signal.call l o c p (Signal.effects pre o c p h)
       = (Raise e, Signal.final (Signal.run_listeners ls o c p h))
    /\ Signal.invoked (Signal.run_listeners ls o c p h)
       = map (Signal.invocation o c p) (pre ++ [l]).
Proof.
  revert h. induction ls as [|a ls IH]; intros h; simpl; [done|].
  destruct (Signal.call a o c p h) as [[[]|e0] h0] eqn:Ha; simpl.
  - intros Hr. destruct (IH h0 Hr) as (pre & l & post & -> & Hok & Hl & Hinv).
    exists (a :: pre), l, post. rewrite effects_cons, Ha. simpl.
    rewrite Ha. simpl. rewrite Hinv. done.
  - intros [= ->]. exists [], a, ls. simpl. rewrite Ha. done.
Qed.

Lemma run_listeners_raises_in ls o c p h e :
  Signal.outcome (Signal.run_listeners ls o c p h) = Raise e ->
  raises_in ls o c p h e.
Proof.
  intros Hr. destruct (run_listeners_raises _ _ _ _ _ _ Hr)
    as (pre & l & post & -> & Hok & Hl & _).
  exists pre, post, l. rewrite Hl. done.
Qed.

(** A run ends in one of two ways. *)
Lemma run_listeners_outcome ls o c p h :
  Signal.outcome (Signal.run_listeners ls o c p h) = Ok tt
  \/ exists e, Signal.outcome (Signal.run_listeners ls o c p h) = Raise e.
Proof.
  destruct (Signal.outcome (Signal.run_listeners ls o c p h)) as [[]|e]; eauto.
Qed.

(** Listeners that return whatever the store make the run return. *)
Lemma run_listeners_all_return ls o c p h :
  Forall (fun l => forall h', fst (Signal.call l o c p h') = Ok tt) ls ->
  Signal.outcome (Signal.run_listeners ls o c p h) = Ok tt.
Proof.
  intros Hall. revert h. induction Hall as [|l ls Hl _ IH]; intros h; simpl.
  - done.
  - specialize (Hl h). destruct (Signal.call l o c p h) as [[[]|e] h']; simpl in *.
    + apply IH.
    + done.
Qed.

End run_listeners_facts.

(** ** Registration and freezing *)

Section signal_facts.
Context {P : Type}.
Implicit Types (sig : Signal.t P) (ls : list (Signal.Listener P)).
Implicit Types (l : Signal.Listener P).

Lemma append_all_open ls sig :
  Signal.frozen sig = false ->
  Signal.append_all ls sig
  = (Ok tt, {| Signal.listeners := Signal.listeners sig ++ ls;
               Signal.frozen := false |}).
Proof.
  revert sig. induction ls as [|l ls IH]; intros [ls0 fr]; simpl; intros ->.
  - by rewrite app_nil_r.
  - unfold Signal.append; simpl. rewrite IH by done. simpl.
    by rewrite <- app_assoc.
Qed.

Lemma append_all_new ls :
  Signal.append_all ls Signal.new
  = (Ok tt, {| Signal.listeners := ls; Signal.frozen := false |}).
Proof. by rewrite append_all_open. Qed.

(** Every open signal is a new signal on which its listeners were appended. *)
Lemma open_is_registered sig :
  Signal.frozen sig = false ->
  sig = snd (Signal.append_all (Signal.listeners sig) Signal.new).
Proof. destruct sig as [ls fr]; simpl; intros ->. by rewrite append_all_new. Qed.

(** Every frozen signal is the result of a freeze. *)
Lemma frozen_is_freeze sig :
  Signal.frozen sig = true -> Signal.freeze sig = sig.
Proof. destruct sig as [ls fr]; simpl; intros ->. reflexivity. Qed.

Lemma freeze_idempotent sig :
  Signal.freeze (Signal.freeze sig) = Signal.freeze sig.
Proof. reflexivity. Qed.

Lemma append_frozen l sig :
  Signal.append l (Signal.freeze sig)
  = (Raise ConfigurationError, Signal.freeze sig).
Proof. reflexivity. Qed.

Lemma send_frozen sig o c p h :
  Signal.send (Signal.freeze sig) o c p h
  = Signal.run_listeners (Signal.listeners sig) o c p h.
Proof. reflexivity. Qed.

End signal_facts.

(** ** What a send method of a Trace amounts to *)

(** Each send method is one [send] on the signal [Method.signal] names,
    with the session and the context the Trace holds and the payload built
    from the arguments. *)
Lemma perform_unfold (t : Trace.t) (c : Call.t) (h : heap) :
  perform t c h
  = relabel (SignalName.inject (Method.signal (Call.method_of c)))
      (Signal.send
         (SignalName.get (Method.signal (Call.method_of c))
            (Trace._trace_config t))
         (Trace._session t) (Trace._trace_config_ctx t)
         (Call.payload c) h).
Proof. destruct c; reflexivity. Qed.

Lemma relabel_callees {P Q : Type} (f : P -> Q) (r : Signal.Run P) :
  map Signal.callee (Signal.invoked (relabel f r))
  = map Signal.callee (Signal.invoked r).
Proof.
  unfold relabel; simpl. rewrite map_map. reflexivity.
Qed.

Lemma invocation_callees {P : Type} (o : ClientSession) (c : val) (p : P)
    (ls : list (Signal.Listener P)) :
  map Signal.callee (map (Signal.invocation o c p) ls)
  = map Signal.callback_id ls.
Proof. rewrite map_map. reflexivity. Qed.

(** ** Order of invocation (C1) *)

Lemma run_listeners_in_order {P : Type} (ls : list (Signal.Listener P))
    (o : ClientSession) (c : val) (p : P) (h : heap) :
  sends_in_order ls o c p h (Signal.run_listeners ls o c p h).
Proof.
  split; [apply run_listeners_prefix|].
  split; [apply run_listeners_returns|].
  intros e Hr.
  destruct (run_listeners_raises _ _ _ _ _ _ Hr)
    as (pre & l & post & Hls & Hok & Hl & Hinv).
  exists pre, l, post. rewrite Hl. done.
Qed.

(** C1, as stated, fails when a listener raises: with the chain
    [L1; L2] registered and frozen, and [L1] raising, a send invokes [L1]
    only, not [L1] and [L2]. *)
Lemma send_stops_at_raising_listener :
  let P := TraceDnsCacheHitParams.t in
  let ls : list (Signal.Listener P) :=
    [raising 1 (ValueError "boom"); passing 2] in
  let sig := Signal.freeze (snd (Signal.append_all ls Signal.new)) in
  let p := TraceDnsCacheHitParams.make "example.com" in
  let r := Signal.send sig 1%positive VNone p ∅ in
  fst (Signal.append_all ls Signal.new) = Ok tt
  /\ map Signal.callee (Signal.invoked r) = [1]
  /\ Signal.invoked r <> map (Signal.invocation 1%positive VNone p) ls.
Proof.
  cbv zeta. split; [reflexivity|]. split; [reflexivity|].
  intros H. apply (f_equal length) in H. discriminate H.
Qed.

(** A chain in which no listener raises is run to its end. *)
Lemma run_listeners_returns_through {P : Type}
    (ls : list (Signal.Listener P)) (o : ClientSession) (c : val) (p : P)
    (h : heap) :
  returns_through ls o c p h ->
  Signal.run_listeners ls o c p h
  = {| Signal.outcome := Ok tt;
       Signal.final := Signal.effects ls o c p h;
       Signal.invoked := map (Signal.invocation o c p) ls |}.
Proof.
  revert h. induction ls as [|l ls IH]; intros h; [reflexivity|].
  intros [Hl Hrest]. rewrite effects_cons. simpl.
  destruct (Signal.call l o c p h) as [[[]|e] h']; simpl in *; [|done].
  by rewrite (IH h' Hrest).
Qed.

(** A chain is cut after the first listener that raises. *)
Lemma run_listeners_first_raise {P : Type}
    (pre post : list (Signal.Listener P)) (l : Signal.Listener P)
    (o : ClientSession) (c : val) (p : P) (h : heap) (e : exn) :
  first_raise pre l o c p h e ->
  Signal.run_listeners (pre ++ l :: post) o c p h
  = {| Signal.outcome := Raise e;
       Signal.final := snd (Signal.call l o c p (Signal.effects pre o c p h));
       Signal.invoked := map (Signal.invocation o c p) (pre ++ [l]) |}.
Proof.
  intros [Hpre Hl].
  pose proof (run_listeners_returns_through pre o c p h Hpre) as Hrun.
  apply run_listeners_raise_at.
  - by rewrite Hrun.
  - rewrite Hrun. simpl.
    destruct (Signal.call l o c p (Signal.effects pre o c p h)) as [x h'].
    simpl in *. by rewrite Hl.
Qed.

(** Either no listener of a chain raises, or one is the first to. *)
Lemma returns_or_first_raise {P : Type} (ls : list (Signal.Listener P))
    (o : ClientSession) (c : val) (p : P) (h : heap) :
  returns_through ls o c p h
  \/ exists pre l post e,
       ls = pre ++ l :: post /\ first_raise pre l o c p h e.
Proof.
  revert h. induction ls as [|a ls IH]; intros h; [by left|].
  destruct (Signal.call a o c p h) as [[[]|e] h'] eqn:Ha.
  - destruct (IH h') as [Hret|(pre & l & post & e & -> & Hpre & Hl)].
    + left. simpl. by rewrite Ha.
    + right. exists (a :: pre), l, post, e. split; [reflexivity|].
      split; [simpl; by rewrite Ha | by rewrite effects_cons, Ha].
  - right. exists [], a, ls, e. split; [reflexivity|].
    split; [exact I | simpl; by rewrite Ha].
Qed.

Lemma run_listeners_chain {P : Type} (ls : list (Signal.Listener P))
    (o : ClientSession) (c : val) (p : P) (h : heap) :
  sends_chain ls o c p h (Signal.run_listeners ls o c p h).
Proof.
  split; [|split].
  - intros Hret. by rewrite (run_listeners_returns_through ls o c p h Hret).
  - intros pre l post e -> Hfirst.
    by rewrite (run_listeners_first_raise pre post l o c p h e Hfirst).
  - apply returns_or_first_raise.
Qed.

(** C1 (amended): for every sequence of listeners [ls] appended to a new
    signal before freeze, the appends are accepted and the frozen signal
    has exactly the listeners [ls]; and for every send on it, however
    many sends there are, each starting in the store the previous one
    left: when no listener raises, the send returns and has invoked
    exactly [ls], each once, in registration order, each listener
    starting in the store its predecessor left on completion; when a
    listener raises, the send has invoked, once each and in registration
    order, the listeners up to and including the first one that raises,
    and no later one, and raises what that listener raised.  Every send
    is one of these two, and what it has invoked is in any case an
    initial segment of [ls]. *)
Theorem send_invokes_in_registration_order {P : Type}
    (ls : list (Signal.Listener P))
    (calls : list (ClientSession * val * P)) (h : heap) :
  let sig := Signal.freeze (snd (Signal.append_all ls Signal.new)) in
  fst (Signal.append_all ls Signal.new) = Ok tt
  /\ Signal.listeners sig = ls
  /\ Signal.frozen sig = true
  /\ length (Signal.send_each sig calls h) = length calls
  /\ forall k o c p,
       calls !! k = Some (o, c, p) ->
       exists h0 r,
         send_starts sig calls h !! k = Some h0
         /\ Signal.send_each sig calls h !! k = Some r
         /\ r = Signal.send sig o c p h0
         /\ sends_chain ls o c p h0 r
         /\ sends_in_order ls o c p h0 r.
Proof.
  cbv zeta. rewrite append_all_new. simpl.
  split; [reflexivity|]. split; [reflexivity|]. split; [reflexivity|].
  split.
  - revert h. induction calls as [|[[o c] p] calls IH]; intros h; simpl;
      [reflexivity|]. by rewrite IH.
  - revert h. induction calls as [|[[o' c'] p'] calls IH]; intros h k o c p;
      [done|].
    destruct k as [|k]; simpl.
    + intros [= -> -> ->]. eexists _, _.
      split; [reflexivity|]. split; [reflexivity|]. split; [reflexivity|].
      split; [apply run_listeners_chain | apply run_listeners_in_order].
    + apply IH.
Qed.

(** Two sends on a chain of three listeners whose second raises: the
    second send, like the first, invokes the first and the second
    listener and not the third, and raises what the second raised. *)
Lemma send_invokes_in_registration_order_witness :
  let ls : list (Signal.Listener TraceDnsCacheHitParams.t) :=
    [assigning 1 "seen" (VInt 1); raising 2 (ValueError "boom"); passing 3] in
  let sig := Signal.freeze (snd (Signal.append_all ls Signal.new)) in
  let p := TraceDnsCacheHitParams.make "example.com" in
  let args := (9%positive, VRef 1%positive, p) in
  exists r,
    Signal.send_each sig [args; args] example_heap !! 1 = Some r
    /\ Signal.outcome r = Raise (ValueError "boom")
    /\ map Signal.callee (Signal.invoked r) = [1; 2].
Proof.
  intros ls sig p args.
  destruct (send_invokes_in_registration_order ls [args; args] example_heap)
    as (_ & _ & _ & _ & Hall).
  destruct (Hall 1 9%positive (VRef 1%positive) p eq_refl)
    as (h0 & r & Hstart & Hr & _ & (_ & Hraise & _) & _).
  exists r. split; [exact Hr|].
  simpl in Hstart. injection Hstart as <-.
  destruct (Hraise [assigning 1 "seen" (VInt 1)]
              (raising 2 (ValueError "boom")) [passing 3]
              (ValueError "boom") eq_refl) as (Hout & Hinv & _).
  - split; [|reflexivity]. split; [reflexivity | exact I].
  - split; [exact Hout|]. by rewrite Hinv.
Defined.

(** Scenario 1 of the spec: two listeners on [on_request_start], frozen;
    [send_request_start] invokes both once, the first before the second,
    each with the session, the context and a payload whose method is GET,
    and this again at a second send. *)
Example send_request_start_twice :
  let c := Call.send_request_start "GET" example_url 5%positive in
  let r1 := perform example_trace c example_heap in
  let r2 := perform example_trace c (Signal.final r1) in
  let p := P_request_start
             (TraceRequestStartParams.make "GET" example_url 5%positive) in
  Signal.outcome r1 = Ok tt
  /\ Signal.invoked r1
     = [Signal.Build_Invocation 1 9%positive (VRef 1%positive) p;
        Signal.Build_Invocation 2 9%positive (VRef 1%positive) p]
  /\ Signal.invoked r2 = Signal.invoked r1
  /\ getattr 1%positive "t0" (Signal.final r1) = Some (VInt 7).
Proof. vm_compute. done. Qed.

(** ** Fail-fast propagation (C2) *)

(** C2: when listener [l] of the chain [pre ++ l :: post] of a frozen
    signal raises [e] during a send (the listeners of [pre] having
    returned), the listeners of [post] are not invoked: the invocations
    are those of [pre] and [l]; the send raises [e] itself, and so does
    the send method of the Trace that triggered it, in the store [l] left. *)
Theorem listener_exception_propagates (t : Trace.t) (c : Call.t)
    (pre post : list (Signal.Listener
                        (SignalName.params (Method.signal (Call.method_of c)))))
    (l : Signal.Listener
           (SignalName.params (Method.signal (Call.method_of c))))
    (e : exn) (h h' : heap) :
  let sig := SignalName.get (Method.signal (Call.method_of c))
               (Trace._trace_config t) in
  let o := Trace._session t in
  let ctx := Trace._trace_config_ctx t in
  let p := Call.payload c in
  Signal.frozen sig = true ->
  Signal.listeners sig = pre ++ l :: post ->
  Signal.outcome (Signal.run_listeners pre o ctx p h) = Ok tt ->
  Signal.call l o ctx p (Signal.effects pre o ctx p h) = (Raise e, h') ->
  Signal.send sig o ctx p h
  = {| Signal.outcome := Raise e;
       Signal.final := h';
       Signal.invoked := map (Signal.invocation o ctx p) (pre ++ [l]) |}
  /\ Signal.outcome (perform t c h) = Raise e
  /\ Signal.final (perform t c h) = h'
  /\ map Signal.callee (Signal.invoked (perform t c h))
     = map Signal.callback_id (pre ++ [l]).
Proof.
  intros sig o ctx p Hfrozen Hls Hpre Hl.
  assert (Hsend : Signal.send sig o ctx p h
    = {| Signal.outcome := Raise e; Signal.final := h';
         Signal.invoked := map (Signal.invocation o ctx p) (pre ++ [l]) |}).
  { unfold Signal.send. rewrite Hfrozen, Hls.
    apply run_listeners_raise_at; [done|].
    destruct (run_listeners_returns _ _ _ _ _ Hpre) as [_ ->]. done. }
  split; [done|].
  rewrite perform_unfold. fold sig o ctx p.
  rewrite relabel_callees, Hsend. simpl.
  by rewrite invocation_callees.
Qed.

(** Scenario 4 of the spec, with a listener before and one after the
    listener that raises. *)
Lemma listener_exception_propagates_witness :
  let c := Call.send_request_end "GET" example_url 5%positive 6%positive in
  Signal.outcome (perform example_trace c example_heap)
    = Raise (ValueError "boom")
  /\ map Signal.callee (Signal.invoked (perform example_trace c example_heap))
     = [3; 4].
Proof.
  intros c.
  destruct (listener_exception_propagates example_trace c
              [assigning 3 "seen" (VInt 1)] [passing 5]
              (raising 4 (ValueError "boom")) (ValueError "boom")
              example_heap
              (setattr 1%positive "seen" (VInt 1) example_heap))
    as (_ & Hout & _ & Hinv); try reflexivity.
  split; [exact Hout | exact Hinv].
Defined.

(** ** The freeze barrier (C3) *)

(** C3: [freeze] leaves a signal frozen.  [append] on a frozen signal
    fails with ConfigurationError and leaves the signal as it was; [send]
    on a signal that is not frozen fails with ConfigurationError, invokes
    no listener and leaves the store as it was; [send] on a frozen signal
    returns unless a listener raises, and what it raises then is what
    that listener raised. *)
Theorem freeze_barrier {P : Type} (sig : Signal.t P)
    (l : Signal.Listener P) (o : ClientSession) (c : val) (p : P) (h : heap) :
  Signal.frozen (@Signal.new P) = false
  /\ Signal.frozen (Signal.freeze sig) = true
  /\ (Signal.frozen sig = true ->
      Signal.append l sig = (Raise ConfigurationError, sig))
  /\ (Signal.frozen sig = false ->
      Signal.send sig o c p h
      = {| Signal.outcome := Raise ConfigurationError;
           Signal.final := h;
           Signal.invoked := [] |})
  /\ (Signal.frozen sig = true ->
      Signal.outcome (Signal.send sig o c p h) = Ok tt
      \/ exists e, Signal.outcome (Signal.send sig o c p h) = Raise e
                   /\ raises_in (Signal.listeners sig) o c p h e)
  /\ (Signal.frozen sig = true ->
      (forall e, ~ raises_in (Signal.listeners sig) o c p h e) ->
      Signal.outcome (Signal.send sig o c p h) = Ok tt).
Proof.
  assert (Hcases : Signal.frozen sig = true ->
    Signal.outcome (Signal.send sig o c p h) = Ok tt
    \/ exists e, Signal.outcome (Signal.send sig o c p h) = Raise e
                 /\ raises_in (Signal.listeners sig) o c p h e).
  { intros Hf. unfold Signal.send. rewrite Hf.
    destruct (run_listeners_outcome (Signal.listeners sig) o c p h)
      as [Hok|[e He]]; [by left|].
    right. exists e. split; [done|]. by apply run_listeners_raises_in. }
  split; [reflexivity|]. split; [reflexivity|].
  split; [intros Hf; unfold Signal.append; by rewrite Hf|].
  split; [intros Hf; unfold Signal.send; by rewrite Hf|].
  split; [exact Hcases|].
  intros Hf Hnone. destruct (Hcases Hf) as [Hok|(e & _ & He)]; [done|].
  destruct (Hnone e He).
Qed.

(** On the signal [on_request_start] of the example configuration:
    before [freeze] a send fails and an append is accepted; after it an
    append fails and a send returns. *)
Lemma freeze_barrier_witness :
  let open := TraceConfig.on_request_start example_config in
  let shut := TraceConfig.on_request_start
                (TraceConfig.freeze example_config) in
  let p := TraceRequestStartParams.make "GET" example_url 5%positive in
  Signal.outcome (Signal.send open 9%positive (VRef 1%positive) p example_heap)
    = Raise ConfigurationError
  /\ Signal.append (passing 6) shut = (Raise ConfigurationError, shut)
  /\ Signal.outcome (Signal.send shut 9%positive (VRef 1%positive) p
                       example_heap) = Ok tt.
Proof.
  intros open shut p.
  destruct (freeze_barrier open (passing 6) 9%positive (VRef 1%positive) p
              example_heap) as (_ & _ & _ & Hsend & _).
  destruct (freeze_barrier shut (passing 6) 9%positive (VRef 1%positive) p
              example_heap) as (_ & _ & Happend & _ & _ & Hreturns).
  split; [by rewrite Hsend|]. split; [by apply Happend|].
  apply Hreturns; [reflexivity|].
  intros e (pre & post & x & Hls & Hok & Hraise).
  destruct pre as [|a [|b pre]]; simpl in Hls.
  - injection Hls as <- _. discriminate Hraise.
  - injection Hls as _ <- _. discriminate Hraise.
  - injection Hls as _ _ Hnil. by destruct pre.
Defined.

(** ** What the listeners of a send receive *)

Lemma run_listeners_arguments {P : Type} (ls : list (Signal.Listener P))
    (o : ClientSession) (c : val) (p : P) (h : heap) :
  Forall (fun i => Signal.owner i = o /\ Signal.context i = c
                   /\ Signal.payload i = p)
    (Signal.invoked (Signal.run_listeners ls o c p h)).
Proof.
  destruct (run_listeners_prefix ls o c p h) as [rest Hrest].
  assert (Hall : Forall (fun i => Signal.owner i = o /\ Signal.context i = c
                                  /\ Signal.payload i = p)
                   (map (Signal.invocation o c p) ls)).
  { apply Forall_forall. intros i [l [-> _]]%list_elem_of_fmap. done. }
  rewrite Hrest in Hall. by apply Forall_app in Hall as [Hall _].
Qed.

Lemma send_arguments {P : Type} (sig : Signal.t P)
    (o : ClientSession) (c : val) (p : P) (h : heap) :
  Forall (fun i => Signal.owner i = o /\ Signal.context i = c
                   /\ Signal.payload i = p)
    (Signal.invoked (Signal.send sig o c p h)).
Proof.
  unfold Signal.send. destruct (Signal.frozen sig); simpl.
  - apply run_listeners_arguments.
  - constructor.
Qed.

(** The first listener of a frozen signal is invoked at every send. *)
Lemma send_first {P : Type} (sig : Signal.t P) (l : Signal.Listener P)
    (rest : list (Signal.Listener P))
    (o : ClientSession) (c : val) (p : P) (h : heap) :
  Signal.frozen sig = true ->
  Signal.listeners sig = l :: rest ->
  head (Signal.invoked (Signal.send sig o c p h))
  = Some (Signal.invocation o c p l).
Proof.
  intros Hf Hl. unfold Signal.send. rewrite Hf, Hl. simpl.
  by destruct (Signal.call l o c p h) as [[[]|e] h'].
Qed.

Lemma perform_arguments (t : Trace.t) (c : Call.t) (h : heap) :
  Forall (fun i =>
            Signal.owner i = Trace._session t
            /\ Signal.context i = Trace._trace_config_ctx t
            /\ Signal.payload i
               = SignalName.inject (Method.signal (Call.method_of c))
                   (Call.payload c))
    (Signal.invoked (perform t c h)).
Proof.
  rewrite perform_unfold. unfold relabel; simpl.
  apply Forall_fmap. eapply Forall_impl; [apply send_arguments|].
  intros i (Ho & Hc & Hp). simpl. by rewrite Ho, Hc, Hp.
Qed.

Lemma perform_first (t : Trace.t) (c : Call.t) (h : heap)
    (l : Signal.Listener
           (SignalName.params (Method.signal (Call.method_of c))))
    (rest : list (Signal.Listener
                    (SignalName.params (Method.signal (Call.method_of c))))) :
  let sig := SignalName.get (Method.signal (Call.method_of c))
               (Trace._trace_config t) in
  Signal.frozen sig = true ->
  Signal.listeners sig = l :: rest ->
  head (Signal.invoked (perform t c h))
  = Some (Signal.Build_Invocation (Signal.callback_id l)
            (Trace._session t) (Trace._trace_config_ctx t)
            (SignalName.inject (Method.signal (Call.method_of c))
               (Call.payload c))).
Proof.
  intros sig Hf Hl. rewrite perform_unfold. fold sig.
  unfold relabel; simpl.
  pose proof (send_first sig l rest (Trace._session t)
                (Trace._trace_config_ctx t) (Call.payload c) h Hf Hl) as Hh.
  destruct (Signal.invoked _) as [|i tl]; simpl in *; [done|].
  by injection Hh as ->.
Qed.

(** The payload a send method builds has the arguments as its fields. *)
Lemma payload_fields (c : Call.t) :
  fields (SignalName.inject (Method.signal (Call.method_of c))
            (Call.payload c))
  = Call.arguments c.
Proof. destruct c; reflexivity. Qed.

(** ** Payload fidelity (C4) *)

(** C4: for each of the sixteen send methods and all arguments, the
    payload the method passes to [send] on its signal has as fields, by
    name and in order, exactly the arguments of the call; so has the
    payload of every invocation of a listener; and when the signal is
    frozen and has listeners, the first one is invoked with it. *)
Theorem payload_carries_arguments (t : Trace.t) (c : Call.t) (h : heap) :
  let s := Method.signal (Call.method_of c) in
  perform t c h
  = relabel (SignalName.inject s)
      (Signal.send (SignalName.get s (Trace._trace_config t))
         (Trace._session t) (Trace._trace_config_ctx t)
         (Call.payload c) h)
  /\ fields (SignalName.inject s (Call.payload c)) = Call.arguments c
  /\ Forall (fun i => fields (Signal.payload i) = Call.arguments c)
       (Signal.invoked (perform t c h))
  /\ (forall l rest,
        Signal.frozen (SignalName.get s (Trace._trace_config t)) = true ->
        Signal.listeners (SignalName.get s (Trace._trace_config t))
          = l :: rest ->
        exists i, head (Signal.invoked (perform t c h)) = Some i
                  /\ Signal.callee i = Signal.callback_id l
                  /\ fields (Signal.payload i) = Call.arguments c).
Proof.
  intros s. split; [apply perform_unfold|].
  split; [apply payload_fields|].
  split.
  - eapply Forall_impl; [apply perform_arguments|].
    intros i (_ & _ & ->). apply payload_fields.
  - intros l rest Hf Hl. eexists. split; [by eapply perform_first|].
    simpl. split; [reflexivity | apply payload_fields].
Qed.

(** The listeners of [on_request_end] see the four arguments of
    [send_request_end]. *)
Lemma payload_carries_arguments_witness :
  let c := Call.send_request_end "GET" example_url 5%positive 6%positive in
  exists i, head (Signal.invoked (perform example_trace c example_heap))
            = Some i
            /\ Signal.callee i = 3
            /\ fields (Signal.payload i)
               = [("method", FStr "GET"); ("url", FURL example_url);
                  ("headers", FHeaders 5%positive);
                  ("response", FResponse 6%positive)].
Proof.
  intros c.
  destruct (payload_carries_arguments example_trace c example_heap)
    as (_ & _ & _ & Hfirst).
  apply (Hfirst (assigning 3 "seen" (VInt 1))
           [raising 4 (ValueError "boom"); passing 5]); reflexivity.
Defined.

(** ** The signals of a configuration *)

Lemma signal_names_complete (s : SignalName.t) : s ∈ SignalName.all.
Proof. destruct s; unfold SignalName.all; set_solver. Qed.

Lemma methods_complete (m : Method.t) : m ∈ Method.all.
Proof. destruct m; unfold Method.all; set_solver. Qed.

Lemma get_freeze (s : SignalName.t) (cfg : TraceConfig.t) :
  SignalName.get s (TraceConfig.freeze cfg)
  = Signal.freeze (SignalName.get s cfg).
Proof. destruct cfg, s; reflexivity. Qed.


Lemma get_set_other (s s' : SignalName.t)
    (x : Signal.t (SignalName.params s')) (cfg : TraceConfig.t) :
  s <> s' ->
  SignalName.get s (SignalName.set s' x cfg) = SignalName.get s cfg.
Proof. destruct cfg, s, s'; intros Hne; try reflexivity; destruct Hne; reflexivity. Qed.

Lemma factory_freeze (cfg : TraceConfig.t) :
  TraceConfig._trace_config_ctx_factory (TraceConfig.freeze cfg)
  = TraceConfig._trace_config_ctx_factory cfg.
Proof. destruct cfg; reflexivity. Qed.

(** ** Freezing a configuration (C5) *)

(** C5: [TraceConfig.freeze] returns for every configuration, and in the
    configuration it returns every one of the sixteen signals is frozen,
    with the listeners it had; the caller gets no other state from it.
    A signal that was frozen before stays as it was. *)
Theorem freeze_freezes_all_signals (cfg : TraceConfig.t) :
  all_frozen (TraceConfig.freeze cfg)
  /\ Forall (fun s => Signal.frozen (SignalName.get s (TraceConfig.freeze cfg))
                      = true) SignalName.all
  /\ length SignalName.all = 16
  /\ NoDup SignalName.all
  /\ (forall s, s ∈ SignalName.all)
  /\ (forall s, Signal.listeners (SignalName.get s (TraceConfig.freeze cfg))
                = Signal.listeners (SignalName.get s cfg))
  /\ TraceConfig._trace_config_ctx_factory (TraceConfig.freeze cfg)
     = TraceConfig._trace_config_ctx_factory cfg
  /\ TraceConfig.freeze (TraceConfig.freeze cfg) = TraceConfig.freeze cfg.
Proof.
  assert (Hall : all_frozen (TraceConfig.freeze cfg)).
  { intros s. by rewrite get_freeze. }
  split; [exact Hall|].
  split; [apply Forall_forall; intros s _; apply Hall|].
  split; [reflexivity|].
  split; [apply (bool_decide_unpack (NoDup SignalName.all));
          vm_compute; exact I|].
  split; [apply signal_names_complete|].
  split; [intros s; by rewrite get_freeze|].
  split; [apply factory_freeze|].
  destruct cfg; reflexivity.
Qed.

(** Scenario 2 of the spec and its counterpart: on the example
    configuration [send_request_start] fails before [freeze] and invokes
    no listener, and returns after it. *)
Example send_before_and_after_freeze :
  let c := Call.send_request_start "GET" example_url 5%positive in
  let unfrozen := Trace.__init__ 9%positive example_config (VRef 1%positive) in
  Signal.outcome (perform unfrozen c example_heap) = Raise ConfigurationError
  /\ Signal.invoked (perform unfrozen c example_heap) = []
  /\ Signal.outcome (perform example_trace c example_heap) = Ok tt.
Proof. vm_compute. done. Qed.

(** ** Context correlation (C6) *)

(** C6: every send method of a Trace passes the context the Trace was
    constructed with to [send], so every listener invocation of every
    send of that Trace carries that one context; and when two Traces hold
    different contexts, whatever their configurations, no invocation made
    for the one carries the context of an invocation made for the other. *)
Theorem context_is_per_trace (t1 t2 : Trace.t) :
  (forall session cfg ctx,
     Trace._trace_config_ctx (Trace.__init__ session cfg ctx) = ctx)
  /\ (forall c h,
        perform t1 c h
        = relabel (SignalName.inject (Method.signal (Call.method_of c)))
            (Signal.send
               (SignalName.get (Method.signal (Call.method_of c))
                  (Trace._trace_config t1))
               (Trace._session t1) (Trace._trace_config_ctx t1)
               (Call.payload c) h))
  /\ (forall c h,
        Forall (fun i => Signal.context i = Trace._trace_config_ctx t1)
          (Signal.invoked (perform t1 c h)))
  /\ (Trace._trace_config_ctx t1 <> Trace._trace_config_ctx t2 ->
      forall c1 c2 h1 h2 i1 i2,
        i1 ∈ Signal.invoked (perform t1 c1 h1) ->
        i2 ∈ Signal.invoked (perform t2 c2 h2) ->
        Signal.context i1 <> Signal.context i2).
Proof.
  assert (Hctx : forall t c h,
            Forall (fun i => Signal.context i = Trace._trace_config_ctx t)
              (Signal.invoked (perform t c h))).
  { intros t c h. eapply Forall_impl; [apply perform_arguments|].
    by intros i (_ & -> & _). }
  split; [reflexivity|].
  split; [intros c h; apply perform_unfold|].
  split; [apply Hctx|].
  intros Hne c1 c2 h1 h2 i1 i2 Hi1 Hi2.
  pose proof (proj1 (Forall_forall _ _) (Hctx t1 c1 h1) i1 Hi1) as ->.
  pose proof (proj1 (Forall_forall _ _) (Hctx t2 c2 h2) i2 Hi2) as ->.
  exact Hne.
Qed.

(** Two traces on the same frozen configuration, with the contexts at
    addresses 1 and 2: an invocation for the first and one for the second
    carry different contexts. *)
Lemma context_is_per_trace_witness :
  let c := Call.send_request_start "GET" example_url 5%positive in
  let r1 := perform example_trace c example_heap in
  let r2 := perform other_trace c example_heap in
  map Signal.context (Signal.invoked r1) = [VRef 1%positive; VRef 1%positive]
  /\ map Signal.context (Signal.invoked r2)
     = [VRef 2%positive; VRef 2%positive]
  /\ Forall (fun i1 =>
               Forall (fun i2 => Signal.context i1 <> Signal.context i2)
                 (Signal.invoked r2))
       (Signal.invoked r1).
Proof.
  intros c r1 r2.
  split; [reflexivity|]. split; [reflexivity|].
  destruct (context_is_per_trace example_trace other_trace)
    as (_ & _ & _ & Hdiff).
  apply Forall_forall; intros i1 Hi1. apply Forall_forall; intros i2 Hi2.
  eapply Hdiff; [discriminate | exact Hi1 | exact Hi2].
Defined.

(** ** Send methods and signals (C7) *)

(** C7: each of the sixteen send methods is one [send] on the signal
    [Method.signal] gives for it, and on no other signal: giving any
    other signal of the configuration another state changes nothing.
    Different methods send on different signals, and every one of the
    sixteen signals is the signal of exactly one method. *)
Theorem send_methods_and_signals_correspond :
  (forall t c h,
     perform t c h
     = relabel (SignalName.inject (Method.signal (Call.method_of c)))
         (Signal.send
            (SignalName.get (Method.signal (Call.method_of c))
               (Trace._trace_config t))
            (Trace._session t) (Trace._trace_config_ctx t)
            (Call.payload c) h))
  /\ (forall session cfg ctx c h s' x,
        s' <> Method.signal (Call.method_of c) ->
        perform (Trace.__init__ session (SignalName.set s' x cfg) ctx) c h
        = perform (Trace.__init__ session cfg ctx) c h)
  /\ (forall m1 m2, Method.signal m1 = Method.signal m2 -> m1 = m2)
  /\ (forall s, exists m,
        Method.signal m = s /\ forall m', Method.signal m' = s -> m' = m)
  /\ length Method.all = 16 /\ NoDup Method.all
  /\ (forall m, m ∈ Method.all)
  /\ length SignalName.all = 16 /\ NoDup SignalName.all
  /\ (forall s, s ∈ SignalName.all)
  /\ map Method.signal Method.all = SignalName.all.
Proof.
  assert (Hinj : forall m1 m2, Method.signal m1 = Method.signal m2 -> m1 = m2).
  { intros [] []; simpl; intros H; first [reflexivity | discriminate H]. }
  split; [apply perform_unfold|].
  split.
  { intros session cfg ctx c h s' x Hne. rewrite !perform_unfold. simpl.
    rewrite get_set_other by done. reflexivity. }
  split; [exact Hinj|].
  split.
  { intros s.
    assert (Hsurj : exists m, Method.signal m = s).
    { pose proof (signal_names_complete s) as Hs.
      change SignalName.all with (map Method.signal Method.all) in Hs.
      apply list_elem_of_fmap in Hs as [m [-> _]]. by exists m. }
    destruct Hsurj as [m Hm]. exists m. split; [exact Hm|].
    intros m' Hm'. apply Hinj. congruence. }
  split; [reflexivity|].
  split; [apply (bool_decide_unpack (NoDup Method.all)); vm_compute; exact I|].
  split; [apply methods_complete|].
  split; [reflexivity|].
  split; [apply (bool_decide_unpack (NoDup SignalName.all)); vm_compute; exact I|].
  split; [apply signal_names_complete|].
  reflexivity.
Qed.

(** ** Objects of the store *)

Lemma alloc_fresh (attrs : namespace) (h : heap) :
  h !! (alloc attrs h).1 = None
  /\ (alloc attrs h).2 !! (alloc attrs h).1 = Some attrs.
Proof.
  unfold alloc; simpl. split.
  - apply not_elem_of_dom, is_fresh.
  - apply lookup_insert_eq.
Qed.

Lemma SimpleNamespace_returns (kwargs : namespace) (h : heap) :
  exists l h',
    SimpleNamespace kwargs h = (Ok (VRef l), h')
    /\ h !! l = None /\ h' !! l = Some kwargs.
Proof.
  unfold SimpleNamespace.
  destruct (alloc_fresh kwargs h) as [Hnew Hobj].
  destruct (alloc kwargs h) as [l h']. simpl in *. eauto.
Qed.

Lemma SimpleNamespace_constructs_fresh : constructs_fresh SimpleNamespace.
Proof.
  intros kwargs h.
  destruct (SimpleNamespace_returns kwargs h) as (l & h' & Hr & Hnew & Hobj).
  exists l, h'. rewrite Hobj. eauto.
Qed.

(** Assigning an attribute of one object leaves every other object alone. *)
Lemma getattr_setattr_other (l l' : loc) (name name' : string) (v : val)
    (h : heap) :
  l <> l' -> getattr l' name' (setattr l name v h) = getattr l' name' h.
Proof.
  intros Hne. unfold getattr, setattr.
  destruct (h !! l); [|done]. by rewrite lookup_insert_ne.
Qed.

Lemma without_parameters_rejects (name : string)
    (body : heap -> result val * heap) :
  rejects name (without_parameters body).
Proof.
  intros kwargs h [v Hv]. unfold without_parameters.
  destruct (decide (kwargs = ∅)) as [->|_]; [|eauto].
  by rewrite lookup_empty in Hv.
Qed.

(** ** The context factory (C8, C9, C10) *)

(** C8: every call of [trace_config_ctx] is one call of the stored
    factory, with the seed passed on, and returns what the factory
    returns.  When the factory constructs a new object at every call,
    every call returns an object that did not exist before; a context
    returned earlier and still alive is another object than the one
    returned now, and assigning an attribute of either leaves the other
    as it is. *)
Theorem trace_config_ctx_returns_new_instance (cfg : TraceConfig.t) :
  (forall seed h,
     TraceConfig.trace_config_ctx cfg seed h
     = TraceConfig._trace_config_ctx_factory cfg
         {[ "trace_request_ctx" := default VNone seed ]} h)
  /\ (constructs_fresh (TraceConfig._trace_config_ctx_factory cfg) ->
      (forall seed h, exists l h',
          TraceConfig.trace_config_ctx cfg seed h = (Ok (VRef l), h')
          /\ h !! l = None /\ is_Some (h' !! l))
      /\ (forall seed1 seed2 h1 h1' h2 h2' c1 c2,
            TraceConfig.trace_config_ctx cfg seed1 h1 = (Ok c1, h1') ->
            live c1 h2 ->
            TraceConfig.trace_config_ctx cfg seed2 h2 = (Ok c2, h2') ->
            c1 <> c2
            /\ exists l1 l2,
                 c1 = VRef l1 /\ c2 = VRef l2 /\ l1 <> l2
                 /\ forall name v name' h,
                      getattr l2 name' (setattr l1 name v h)
                        = getattr l2 name' h
                      /\ getattr l1 name' (setattr l2 name v h)
                        = getattr l1 name' h)).
Proof.
  split; [reflexivity|].
  intros Hfresh. split.
  - intros seed h. apply Hfresh.
  - intros seed1 seed2 h1 h1' h2 h2' c1 c2 H1 Hlive H2.
    unfold TraceConfig.trace_config_ctx in *.
    destruct (Hfresh {[ "trace_request_ctx" := default VNone seed1 ]} h1)
      as (l1 & k1 & E1 & _ & _).
    destruct (Hfresh {[ "trace_request_ctx" := default VNone seed2 ]} h2)
      as (l2 & k2 & E2 & Hnew2 & _).
    rewrite E1 in H1. rewrite E2 in H2.
    injection H1 as <- <-. injection H2 as <- <-.
    simpl in Hlive.
    assert (Hne : l1 <> l2).
    { intros ->. rewrite Hnew2 in Hlive. by destruct Hlive. }
    split; [congruence|].
    exists l1, l2. do 3 (split; [done|]).
    intros name v name' h. split; by apply getattr_setattr_other.
Qed.

(** Two calls on the default configuration, the second in the store the
    first left: two objects, at two addresses. *)
Lemma trace_config_ctx_returns_new_instance_witness :
  let cfg := TraceConfig.__init__ None in
  let r1 := TraceConfig.trace_config_ctx cfg (Some (VInt 1)) ∅ in
  let r2 := TraceConfig.trace_config_ctx cfg (Some (VInt 2)) r1.2 in
  r1.1 = Ok (VRef 1%positive)
  /\ r2.1 = Ok (VRef 2%positive)
  /\ VRef 1%positive <> VRef 2%positive.
Proof.
  intros cfg r1 r2.
  split; [reflexivity|]. split; [reflexivity|].
  destruct (trace_config_ctx_returns_new_instance cfg) as [_ Hnew].
  destruct (Hnew SimpleNamespace_constructs_fresh) as [_ Hdistinct].
  refine (proj1 (Hdistinct (Some (VInt 1)) (Some (VInt 2)) ∅ r1.2 r1.2 r2.2
                   (VRef 1%positive) (VRef 2%positive) _ _ _)).
  - reflexivity.
  - vm_compute. eauto.
  - reflexivity.
Defined.

(** A factory that shares one object returns it at every call: without
    the condition on the factory two calls do return the same instance. *)
Example sharing_factory_shares (ctx : val) (seed1 seed2 : option val)
    (h1 h2 : heap) :
  let cfg := TraceConfig.__init__ (Some (sharing ctx)) in
  (TraceConfig.trace_config_ctx cfg seed1 h1).1
  = (TraceConfig.trace_config_ctx cfg seed2 h2).1.
Proof. reflexivity. Qed.

(** C9, as stated, fails: the context of a configuration constructed
    without a factory, asked for without a seed, is a namespace with the
    field [trace_request_ctx], holding [None]; it is not empty. *)
Lemma default_context_is_not_empty :
  let r := TraceConfig.trace_config_ctx (TraceConfig.__init__ None) None ∅ in
  returned_object r = Some {[ "trace_request_ctx" := VNone ]}
  /\ returned_object r <> Some ∅.
Proof.
  cbv zeta.
  assert (H : returned_object
            (TraceConfig.trace_config_ctx (TraceConfig.__init__ None) None ∅)
          = Some {[ "trace_request_ctx" := VNone ]}).
  { by vm_compute. }
  split; [exact H|]. rewrite H. intros Hempty%(inj Some).
  apply (f_equal (fun m : namespace => m !! "trace_request_ctx")) in Hempty.
  by rewrite lookup_singleton_eq, lookup_empty in Hempty.
Qed.

(** C9 (amended): when a TraceConfig is constructed without a context
    factory, the factory is [SimpleNamespace], and the context
    [trace_config_ctx] returns is a new namespace with exactly one field,
    [trace_request_ctx], which holds the seed ([None] when there is
    none). *)
Theorem default_context_holds_the_seed (seed : option val) (h : heap) :
  TraceConfig._trace_config_ctx_factory (TraceConfig.__init__ None)
  = SimpleNamespace
  /\ exists l h',
       TraceConfig.trace_config_ctx (TraceConfig.__init__ None) seed h
       = (Ok (VRef l), h')
       /\ h !! l = None
       /\ h' !! l = Some {[ "trace_request_ctx" := default VNone seed ]}
       /\ returned_object
            (TraceConfig.trace_config_ctx (TraceConfig.__init__ None) seed h)
          = Some {[ "trace_request_ctx" := default VNone seed ]}
       /\ dom ({[ "trace_request_ctx" := default VNone seed ]} : namespace)
          = {[ "trace_request_ctx" ]}.
Proof.
  split; [reflexivity|].
  change (TraceConfig.trace_config_ctx (TraceConfig.__init__ None) seed h)
    with (SimpleNamespace {[ "trace_request_ctx" := default VNone seed ]} h).
  destruct (SimpleNamespace_returns
              {[ "trace_request_ctx" := default VNone seed ]} h)
    as (l & h' & Hr & Hnew & Hobj).
  exists l, h'. rewrite Hr.
  split; [reflexivity|]. split; [exact Hnew|]. split; [exact Hobj|].
  split; [exact Hobj | apply dom_singleton_L].
Qed.

(** C10: [trace_config_ctx] calls the factory of the configuration with
    one keyword argument, [trace_request_ctx], whose value is the seed
    ([None] when it is left out), and returns what the factory returns.
    So a factory that does not accept that keyword makes every call
    raise TypeError; and with the default factory the namespace returned
    has the attribute [trace_request_ctx], equal to the seed. *)
Theorem factory_is_called_with_trace_request_ctx (cfg : TraceConfig.t)
    (seed : option val) (h : heap) :
  let kwargs : namespace :=
    {[ "trace_request_ctx" := default VNone seed ]} in
  TraceConfig.trace_config_ctx cfg seed h
  = TraceConfig._trace_config_ctx_factory cfg kwargs h
  /\ dom kwargs = {[ "trace_request_ctx" ]}
  /\ size kwargs = 1
  /\ kwargs !! "trace_request_ctx" = Some (default VNone seed)
  /\ (rejects "trace_request_ctx" (TraceConfig._trace_config_ctx_factory cfg) ->
      exists msg,
        TraceConfig.trace_config_ctx cfg seed h = (Raise (TypeError msg), h))
  /\ (TraceConfig._trace_config_ctx_factory cfg = SimpleNamespace ->
      exists l h',
        TraceConfig.trace_config_ctx cfg seed h = (Ok (VRef l), h')
        /\ getattr l "trace_request_ctx" h' = Some (default VNone seed)).
Proof.
  intros kwargs.
  split; [reflexivity|].
  split; [apply dom_singleton_L|].
  split; [apply map_size_singleton|].
  split; [apply lookup_singleton_eq|].
  split.
  - intros Hrej. apply Hrej. unfold kwargs. rewrite lookup_singleton_eq. eauto.
  - intros Hdefault. unfold TraceConfig.trace_config_ctx. rewrite Hdefault.
    destruct (SimpleNamespace_returns kwargs h) as (l & h' & Hr & _ & Hobj).
    exists l, h'. split; [exact Hr|].
    unfold getattr. rewrite Hobj. apply lookup_singleton_eq.
Qed.

(** A factory declared without parameters fails at every call; the
    default factory stores the seed. *)
Lemma factory_is_called_with_trace_request_ctx_witness :
  let strict := TraceConfig.__init__
                  (Some (without_parameters (SimpleNamespace ∅))) in
  let default := TraceConfig.freeze example_config in
  (exists msg,
     TraceConfig.trace_config_ctx strict (Some (VInt 3)) ∅
     = (Raise (TypeError msg), ∅))
  /\ (exists l h',
        TraceConfig.trace_config_ctx default (Some (VInt 3)) ∅
        = (Ok (VRef l), h')
        /\ getattr l "trace_request_ctx" h' = Some (VInt 3)).
Proof.
  intros strict dflt. split.
  - destruct (factory_is_called_with_trace_request_ctx strict
                (Some (VInt 3)) ∅) as (_ & _ & _ & _ & Hrej & _).
    apply Hrej, without_parameters_rejects.
  - destruct (factory_is_called_with_trace_request_ctx dflt
                (Some (VInt 3)) ∅) as (_ & _ & _ & _ & _ & Hdef).
    apply Hdef. reflexivity.
Defined.

(** * Further properties of the module *)


(** ** The session a Trace holds *)

(** X1: every listener invocation of every send method of a Trace gets,
    as its first argument, the session the Trace was constructed with;
    when the signal of the method is frozen and has listeners, the first
    of them is invoked and gets it. *)
Theorem session_is_passed_to_listeners (session : ClientSession)
    (cfg : TraceConfig.t) (ctx : val) (c : Call.t) (h : heap) :
  let t := Trace.__init__ session cfg ctx in
  Forall (fun i => Signal.owner i = session) (Signal.invoked (perform t c h))
  /\ (forall l rest,
        Signal.frozen (SignalName.get (Method.signal (Call.method_of c)) cfg)
          = true ->
        Signal.listeners
          (SignalName.get (Method.signal (Call.method_of c)) cfg)
          = l :: rest ->
        exists i, head (Signal.invoked (perform t c h)) = Some i
                  /\ Signal.callee i = Signal.callback_id l
                  /\ Signal.owner i = session).
Proof.
  intros t. split.
  - eapply Forall_impl; [apply perform_arguments|]. by intros i (-> & _ & _).
  - intros l rest Hf Hl. eexists. split.
    + by apply (perform_first t c h l rest).
    + done.
Qed.

(** ** Registration, freeze and send together *)



(** X3: after [TraceConfig.freeze] no listener can be registered on any
    of the sixteen signals: [append] through the property raises
    ConfigurationError and the configuration stays as it was. *)
Theorem frozen_config_rejects_registration (cfg : TraceConfig.t)
    (s : SignalName.t) (l : Signal.Listener (SignalName.params s)) :
  register s l (TraceConfig.freeze cfg)
  = (Raise ConfigurationError, TraceConfig.freeze cfg).
Proof. destruct cfg, s; reflexivity. Qed.

(** ** A configuration without listeners *)

(** X4: in a newly constructed TraceConfig, whatever its factory, every
    signal is open and has no listener, so every send method of a Trace
    on it raises ConfigurationError, invokes nothing and leaves the
    store; once the configuration is frozen every send method returns,
    again with nothing invoked and the store as it was. *)
Theorem sends_on_new_config (factory : option _Factory)
    (session : ClientSession) (ctx : val) (c : Call.t) (h : heap) :
  let cfg := TraceConfig.__init__ factory in
  (forall s, Signal.listeners (property s cfg) = []
             /\ Signal.frozen (property s cfg) = false)
  /\ perform (Trace.__init__ session cfg ctx) c h
     = {| Signal.outcome := Raise ConfigurationError;
          Signal.final := h;
          Signal.invoked := [] |}
  /\ perform (Trace.__init__ session (TraceConfig.freeze cfg) ctx) c h
     = {| Signal.outcome := Ok tt;
          Signal.final := h;
          Signal.invoked := [] |}.
Proof.
  intros cfg. split; [intros s; by destruct s|].
  split; destruct c; reflexivity.
Qed.
